(** * disperse.news_file: the NEWS-file header grammar and its three operations

    A shallow embedding of [src/disperse/news_file.py].

    - Python [bytes] are lists of [Byte.byte].
    - Python [str] is represented by its UTF-8 encoding, held in a Rocq
      [string]; [decode] is therefore a validity check followed by a change
      of type, and [encode] is the change of type back.  Equality of [str]
      values, [re.fullmatch] on an ASCII character class, [%]-formatting with
      [%s] and [''.join] all commute with that representation.
      A [str] holding a lone surrogate has no UTF-8 encoding and is not
      represented.
    - Exceptions are values of [exn]; a computation that may raise returns a
      [result].
    - The breezy tree is an explicit state threaded through the three
      operations; it records the calls made on it. *)

From Stdlib Require Import Strings.Byte Strings.Ascii Strings.String NArith.
From stdpp Require Import gmap strings list.

Local Open Scope string_scope.
Local Open Scope nat_scope.
Local Open Scope list_scope.

(** ** Bytes and text *)

Abbreviation bytes := (list byte).
Abbreviation str := string.

(** A bytes literal [b'...'] whose characters are all ASCII. *)
Definition B (s : string) : bytes := list_byte_of_string s.

Definition TAB : byte := x09.
Definition LF : byte := x0a.
Definition SPACE : byte := x20.
Definition LPAREN : byte := x28.
Definition RPAREN : byte := x29.

(** The text literals ["\t"] and ["\n"]. *)
Definition tab_str : str := String "009" "".
Definition nl_str : str := String "010" "".

(** *** Exceptions *)

(** Modelled from the spec: [NoUnreleasedChanges], which the module imports
    from its package ("leading entry is released").  [PendingExists] and
    [OddVersion] are the two classes of the module; the others are the
    built-in exceptions its expressions can raise, and the tree's. *)
Inductive exn :=
| NoUnreleasedChanges
| PendingExists (version : str) (date : option str)
| OddVersion (version : str)
| AssertionError (msg : str)
| UnicodeDecodeError
| IndexError
| ValueError
| KeyError (key : str)
| NoSuchFile (path : str).

Inductive result (A : Type) :=
| Ok (a : A)
| Raise (e : exn).
Arguments Ok {A} a.
Arguments Raise {A} e.

Global Instance result_ret : MRet result := fun _ a => Ok a.
Global Instance result_bind : MBind result := fun _ _ k r =>
  match r with
  | Ok a => k a
  | Raise e => Raise e
  end.
Global Instance result_fmap : FMap result := fun _ _ f r =>
  match r with
  | Ok a => Ok (f a)
  | Raise e => Raise e
  end.

(** *** [bytes] methods *)

(** ASCII whitespace as [bytes.strip()] understands it: [b' \t\n\r\x0b\x0c']. *)
Definition is_space (c : byte) : bool :=
  match c with
  | x20 | x09 | x0a | x0d | x0b | x0c => true
  | _ => false
  end.

Fixpoint lstrip (s : bytes) : bytes :=
  match s with
  | [] => []
  | c :: rest => if is_space c then lstrip rest else s
  end.

Definition rstrip (s : bytes) : bytes := rev (lstrip (rev s)).

(** [s.strip()] *)
Definition strip (s : bytes) : bytes := rstrip (lstrip s).

(** [s.startswith(prefix)] *)
Fixpoint startswith (prefix s : bytes) : bool :=
  match prefix, s with
  | [], _ => true
  | _ :: _, [] => false
  | p :: prefix', c :: s' => Byte.eqb p c && startswith prefix' s'
  end.

(** [s.endswith(suffix)] *)
Definition endswith (suffix s : bytes) : bool :=
  startswith (rev suffix) (rev s).

(** [sep in s] for a one-byte [sep]. *)
Definition contains (sep : byte) (s : bytes) : bool :=
  existsb (Byte.eqb sep) s.

(** The text before the first [sep], and the text after it when there is one. *)
Fixpoint cut (sep : byte) (s : bytes) : bytes * option bytes :=
  match s with
  | [] => ([], None)
  | c :: rest =>
      if Byte.eqb c sep then ([], Some rest)
      else let '(h, t) := cut sep rest in (c :: h, t)
  end.

(** [s.split(sep, 1)] for a one-byte [sep]. *)
Definition split1 (sep : byte) (s : bytes) : list bytes :=
  match cut sep s with
  | (h, None) => [h]
  | (h, Some t) => [h; t]
  end.

(** [s[1:-1]] *)
Definition slice_1_m1 (s : bytes) : bytes := removelast (tl s).

(** *** UTF-8 *)

Definition in_range (lo hi : N) (c : byte) : bool :=
  (lo <=? Byte.to_N c)%N && (Byte.to_N c <=? hi)%N.

Definition cont (c : byte) : bool := in_range 128 191 c.

Definition seq2 (c0 c1 : byte) : bool := in_range 194 223 c0 && cont c1.

Definition seq3 (c0 c1 c2 : byte) : bool :=
  (in_range 224 224 c0 && in_range 160 191 c1 && cont c2)
  || (in_range 225 236 c0 && cont c1 && cont c2)
  || (in_range 237 237 c0 && in_range 128 159 c1 && cont c2)
  || (in_range 238 239 c0 && cont c1 && cont c2).

Definition seq4 (c0 c1 c2 c3 : byte) : bool :=
  (in_range 240 240 c0 && in_range 144 191 c1 && cont c2 && cont c3)
  || (in_range 241 243 c0 && cont c1 && cont c2 && cont c3)
  || (in_range 244 244 c0 && in_range 128 143 c1 && cont c2 && cont c3).

(** Well-formed UTF-8: shortest form only, no surrogates, nothing above
    U+10FFFF, as the strict codec demands. *)
Fixpoint utf8_valid (s : bytes) : bool :=
  match s with
  | [] => true
  | c0 :: r0 =>
      if in_range 0 127 c0 then utf8_valid r0
      else
        match r0 with
        | [] => false
        | c1 :: r1 =>
            if seq2 c0 c1 then utf8_valid r1
            else
              match r1 with
              | [] => false
              | c2 :: r2 =>
                  if seq3 c0 c1 c2 then utf8_valid r2
                  else
                    match r2 with
                    | [] => false
                    | c3 :: r3 =>
                        if seq4 c0 c1 c2 c3 then utf8_valid r3 else false
                    end
              end
        end
  end.

(** [s.decode()] *)
Definition decode (s : bytes) : result str :=
  if utf8_valid s then Ok (string_of_list_byte s) else Raise UnicodeDecodeError.

(** [s.encode()] *)
Definition encode (s : str) : bytes := list_byte_of_string s.

(** ** The version-line grammar *)

Definition is_version_char (c : ascii) : bool :=
  let n := N_of_ascii c in
  ((48 <=? n)%N && (n <=? 57)%N) || (n =? 46)%N.

(** [re.fullmatch(r'[0-9\.]+', v) is not None] *)
Definition fullmatch_digits_dots (v : str) : bool :=
  match list_ascii_of_string v with
  | [] => false
  | cs => forallb is_version_char cs
  end.

Definition check_version (v : str) : result bool :=
  if String.eqb v "UNRELEASED" || String.eqb v "%(version)s" then Ok true
  else if negb (fullmatch_digits_dots v) then Raise (OddVersion v)
  else Ok false.

Definition check_date (d : str) : bool :=
  if String.eqb d "UNRELEASED" then true else false.

Definition fmt_tab : str :=
  Eval cbv in "%(version)s" +:+ tab_str +:+ "%(date)s".
Definition fmt_paren : str := "%(version)s (%(date)s)".
Definition fmt_space : str := "%(version)s %(date)s".
Definition fmt_bare : str := "%(version)s".

(** [a or b], where [b] is only evaluated when [a] is false. *)
Definition lazy_or (a : result bool) (b : result bool) : result bool :=
  a ≫= λ x : bool, if x then Ok true else b.

(** What a header line parses to: version, date, line template, pending. *)
Definition parsed : Type := str * option str * str * bool.

Definition parse_version_line (line : bytes) : result parsed :=
  if contains TAB (strip line) then
     match split1 TAB (strip line) with
     | [version; date] =>
         pending ← lazy_or (v ← decode version; check_version v)
                            (d ← decode date; Ok (check_date d));
         v ← decode version;
         d ← decode date;
         Ok (v, Some d, fmt_tab, pending)
     | _ => Raise ValueError
     end
   else if contains SPACE (strip line) then
     match split1 SPACE (strip line) with
     | [version; date] =>
         pending ← lazy_or (v ← decode version; check_version v)
                            (d ← decode (slice_1_m1 date); Ok (check_date d));
         if startswith [LPAREN] date && endswith [RPAREN] date then
           v ← decode version;
           d ← decode (slice_1_m1 date);
           Ok (v, Some d, fmt_paren, pending)
         else
           v ← decode version;
           d ← decode date;
           Ok (v, Some d, fmt_space, pending)
     | _ => Raise ValueError
     end
   else
     let version := strip line in
     pending ← (v ← decode version; check_version v);
     v ← decode version;
     Ok (v, None, fmt_bare, pending).

(** ** Rendering a line template *)

(** The values a template is rendered with: text, or [None]. *)
Inductive pyval :=
| PyStr (s : str)
| PyNone.

(** [str(v)], which is what the [%s] conversion inserts. *)
Definition str_of_pyval (v : pyval) : str :=
  match v with
  | PyStr s => s
  | PyNone => "None"
  end.

Definition pydict := list (str * pyval).

Fixpoint dict_get (k : str) (d : pydict) : result pyval :=
  match d with
  | [] => Raise (KeyError k)
  | (k', v) :: d' => if String.eqb k k' then Ok v else dict_get k d'
  end.

(** [k + c] for a character [c]. *)
Fixpoint str_snoc (k : str) (c : ascii) : str :=
  match k with
  | "" => String c ""
  | String a k' => String a (str_snoc k' c)
  end.

Inductive fmt_state :=
| Lit
| Pct
| InKey (k : str)
| Conv (v : pyval).

(** [fmt % d] for a mapping [d], restricted to the conversions the templates
    of this module use: [%(key)s], and [%%].  Any other conversion raises
    here; no template of [parse_version_line] contains one. *)
Fixpoint pyformat_from (st : fmt_state) (fmt : str) (d : pydict) : result str :=
  match fmt with
  | "" => match st with Lit => Ok "" | _ => Raise ValueError end
  | String c rest =>
      match st with
      | Lit =>
          if Ascii.eqb c "%" then pyformat_from Pct rest d
          else String c <$> pyformat_from Lit rest d
      | Pct =>
          if Ascii.eqb c "(" then pyformat_from (InKey "") rest d
          else if Ascii.eqb c "%" then String "%" <$> pyformat_from Lit rest d
          else Raise ValueError
      | InKey k =>
          if Ascii.eqb c ")" then v ← dict_get k d; pyformat_from (Conv v) rest d
          else pyformat_from (InKey (str_snoc k c)) rest d
      | Conv v =>
          if Ascii.eqb c "s" then String.app (str_of_pyval v) <$> pyformat_from Lit rest d
          else Raise ValueError
      end
  end.

Definition pyformat (fmt : str) (d : pydict) : result str :=
  pyformat_from Lit fmt d.

(** The mapping [{'version': version, 'date': date}]. *)
Definition fields (version date : pyval) : pydict :=
  [("version", version); ("date", date)].

(** ** Dates *)

(** The calendar part of a [datetime]; the constructor of the library keeps
    [1 <= year <= 9999], [1 <= month <= 12], [1 <= day <= 31]. *)
Record datetime := mkdate { year : nat; month : nat; day : nat }.

Definition digit (n : nat) : ascii := ascii_of_nat (48 + n mod 10).

Definition digits2 (n : nat) : str :=
  String (digit (n / 10)) (String (digit n) "").

Definition digits4 (n : nat) : str :=
  String (digit (n / 1000)) (String (digit (n / 100)) (digits2 n)).

(** [d.strftime("%Y-%m-%d")]: the year on four digits, the month and the day
    on two, as the library documents it (for a year below 1000 the C library
    underneath decides whether the year is padded). *)
Definition strftime_Ymd (d : datetime) : str :=
  digits4 (year d) +:+ "-" +:+ digits2 (month d) +:+ "-" +:+ digits2 (day d).

(** ** The header skipper *)

(** [l[i]] *)
Definition getitem {A} (l : list A) (i : nat) : result A :=
  match l !! i with
  | Some x => Ok x
  | None => Raise IndexError
  end.

(** [l[i] = x] *)
Definition setitem {A} (l : list A) (i : nat) (x : A) : result (list A) :=
  match l !! i with
  | Some _ => Ok (<[i := x]> l)
  | None => Raise IndexError
  end.

(** [l.insert(i, x)] for [0 <= i]. *)
Definition list_insert_at {A} (l : list A) (i : nat) (x : A) : list A :=
  take i l ++ x :: drop i l.

(** [not line.strip()] *)
Definition is_blank (line : bytes) : bool :=
  match strip line with
  | [] => true
  | _ => false
  end.

(** [while not lines[i].strip(): i += 1], with [rest] standing for
    [lines[i:]]. *)
Fixpoint skip_blank (rest : list bytes) (i : nat) : result nat :=
  match rest with
  | [] => Raise IndexError
  | line :: rest' => if is_blank line then skip_blank rest' (S i) else Ok i
  end.

Definition skip_header (lines : list bytes) : result nat :=
  let i := 0 in
  l0 ← getitem lines i;
  if startswith (B "Changelog for ") l0 then
    let i := i + 1 in
    l1 ← getitem lines i;
    let i := if startswith (B "======") l1 then i + 1 else i in
    skip_blank (drop i lines) i
  else Ok 0.

(** ** The tree *)

Inductive tree_call :=
| GetFileLines (path : str)
| PutFileBytesNonAtomic (path : str) (content : bytes).

(** Modelled from the spec: the Tree collaborator ([breezy.tree.Tree], not
    part of this module).  It holds the content of each file, and [calls]
    records every call made on it, oldest first. *)
Record Tree := mkTree {
  files : gmap string bytes;
  calls : list tree_call
}.

Definition TreeM (A : Type) : Type := Tree → result A * Tree.

Global Instance tree_ret : MRet TreeM := fun _ a t => (Ok a, t).
Global Instance tree_bind : MBind TreeM := fun _ _ k m t =>
  match m t with
  | (Ok a, t') => k a t'
  | (Raise e, t') => (Raise e, t')
  end.

Definition lift {A} (r : result A) : TreeM A := fun t => (r, t).
Definition raise {A} (e : exn) : TreeM A := fun t => (Raise e, t).

(** A text split after each line feed, every line keeping its terminator;
    [cur] is the line being read, in reverse. *)
Fixpoint split_lines_from (cur : bytes) (s : bytes) : list bytes :=
  match s with
  | [] => match cur with [] => [] | _ => [rev cur] end
  | c :: rest =>
      if Byte.eqb c LF then rev (c :: cur) :: split_lines_from [] rest
      else split_lines_from (c :: cur) rest
  end.

Definition split_lines (s : bytes) : list bytes := split_lines_from [] s.

(** Modelled from the spec: [read_lines(path)], the lines of the file, each
    with its terminator. *)
Definition get_file_lines (path : str) : TreeM (list bytes) := fun t =>
  let t' := mkTree (files t) (calls t ++ [GetFileLines path]) in
  match files t !! path with
  | Some content => (Ok (split_lines content), t')
  | None => (Raise (NoSuchFile path), t')
  end.

(** Modelled from the spec: [write_lines(path, full_byte_content)], which
    overwrites the whole file. *)
Definition put_file_bytes_non_atomic (path : str) (content : bytes)
  : TreeM unit := fun t =>
  (Ok tt,
   mkTree (<[path := content]> (files t))
          (calls t ++ [PutFileBytesNonAtomic path content])).

(** [b"".join(lines)] *)
Definition join_bytes (lines : list bytes) : bytes := concat lines.

(** [''.join(parts)] *)
Definition join_str (parts : list str) : str := String.concat "" parts.

(** ** The operations *)

(** [line.startswith(b' ') or line.startswith(b'\t')], or a blank line. *)
Definition is_change_line (line : bytes) : bool :=
  is_blank line || startswith [SPACE] line || startswith [TAB] line.

(** The loop of [news_mark_released] over [lines[i+1:]]. *)
Fixpoint collect_change_lines (rest : list bytes) (change_lines : list str)
  : result (list str) :=
  match rest with
  | [] => Ok change_lines
  | line :: rest' =>
      if is_change_line line then
        s ← decode line;
        collect_change_lines rest' (change_lines ++ [s])
      else Ok change_lines
  end.

Definition news_mark_released (path : str) (expected_version : str)
    (release_date : datetime) : TreeM str :=
  lines ← get_file_lines path;
  i ← lift (skip_header lines);
  line ← lift (getitem lines i);
  hdr ← lift (parse_version_line line);
  let '(version, date, line_format, pending) := (hdr : parsed) in
  if negb pending then raise NoUnreleasedChanges
  else if negb (String.eqb expected_version version) then
    raise (AssertionError
             ("unexpected version: " +:+ version +:+ " != " +:+ expected_version))
  else
    change_lines ← lift (collect_change_lines (drop (i + 1) lines) []);
    header ← lift (pyformat line_format
                     (fields (PyStr version) (PyStr (strftime_Ymd release_date))));
    lines ← lift (setitem lines i (encode header ++ [LF]));
    put_file_bytes_non_atomic path (join_bytes lines);;
    mret (join_str change_lines).

Definition news_add_pending (path : str) (new_version : str) : TreeM unit :=
  lines ← get_file_lines path;
  i ← lift (skip_header lines);
  line ← lift (getitem lines i);
  hdr ← lift (parse_version_line line);
  let '(unused_version, unused_date, line_format, pending) := (hdr : parsed) in
  if pending then raise (PendingExists unused_version unused_date)
  else
    let lines := list_insert_at lines i [LF] in
    header ← lift (pyformat line_format
                     (fields (PyStr new_version) (PyStr "UNRELEASED")));
    let lines := list_insert_at lines i (encode header ++ [LF]) in
    put_file_bytes_non_atomic path (join_bytes lines).

Definition news_find_pending (path : str) : TreeM str :=
  lines ← get_file_lines path;
  i ← lift (skip_header lines);
  line ← lift (getitem lines i);
  hdr ← lift (parse_version_line line);
  let '(version, date, line_format, pending) := (hdr : parsed) in
  if negb pending then raise NoUnreleasedChanges
  else mret version.

(** The class [NewsFile]; its [tree] is the state the methods run in. *)
Record NewsFile := mkNewsFile { path : str }.

Definition mark_released (self : NewsFile) (expected_version : str)
    (release_date : datetime) : TreeM str :=
  news_mark_released (path self) expected_version release_date.

Definition add_pending (self : NewsFile) (new_version : str) : TreeM unit :=
  news_add_pending (path self) new_version.

Definition find_pending (self : NewsFile) : TreeM str :=
  news_find_pending (path self).

(** [try: self.find_pending() except NoUnreleasedChanges: pass] *)
Definition validate (self : NewsFile) : TreeM unit := fun t =>
  match find_pending self t with
  | (Ok _, t') => (Ok tt, t')
  | (Raise NoUnreleasedChanges, t') => (Ok tt, t')
  | (Raise e, t') => (Raise e, t')
  end.

(** A tree that holds one file. *)
Definition one_file (path : str) (content : bytes) : Tree :=
  mkTree {[ path := content ]} [].

(** The lines of the second scenario: a pending entry and its change block. *)
Definition doc_pending : bytes :=
  B "1.2.3" ++ [TAB] ++ B "UNRELEASED" ++ [LF] ++ B "  Fixed bug." ++ [LF; LF].

(** A released entry with a parenthesized date. *)
Definition doc_released : bytes := B "1.2.3 (2024-05-01)" ++ [LF].

(** The version bytes of a header line, as [parse_version_line] cuts them. *)
Definition version_token (line : bytes) : bytes :=
  if contains TAB (strip line) then (cut TAB (strip line)).1
  else if contains SPACE (strip line) then (cut SPACE (strip line)).1
  else strip line.

(** The leading entry of the file at [path]: the lines read, the index the
    header skipper returns, the line there and what it parses to. *)
Definition leading_entry (t : Tree) (path : str)
    (lines : list bytes) (i : nat) (line : bytes) (hdr : parsed) : Prop :=
  ∃ content,
    files t !! path = Some content
    ∧ lines = split_lines content
    ∧ skip_header lines = Ok i
    ∧ lines !! i = Some line
    ∧ parse_version_line line = Ok hdr.

(** The tree after one read of [path] and nothing else. *)
Definition after_read (path : str) (t : Tree) : Tree :=
  mkTree (files t) (calls t ++ [GetFileLines path]).

(** The tree after one read of [path] and one write of [lines] to it. *)
Definition after_write (path : str) (lines : list bytes) (t : Tree) : Tree :=
  mkTree (<[path := join_bytes lines]> (files t))
         (calls t ++ [GetFileLines path;
                      PutFileBytesNonAtomic path (join_bytes lines)]).

(** The option a parsed date is, as a template value. *)
Definition pyval_of_date (d : option str) : pyval :=
  match d with
  | Some s => PyStr s
  | None => PyNone
  end.

(** The change block of a header at index [i]: the longest run of lines
    directly after it that are blank or begin with a space or a tab. *)
Fixpoint change_block (rest : list bytes) : list bytes :=
  match rest with
  | [] => []
  | line :: rest' =>
      if is_change_line line then line :: change_block rest' else []
  end.

(** The four shapes of an accepted header line. *)
Inductive parses_as (line : bytes) : parsed → Prop :=
| shape_tab vb db v d pv :
    strip line = vb ++ TAB :: db →
    decode vb = Ok v → check_version v = Ok pv → decode db = Ok d →
    parses_as line (v, Some d, fmt_tab, pv || check_date d)
| shape_paren vb inner v d pv :
    contains TAB (strip line) = false →
    strip line = vb ++ SPACE :: LPAREN :: inner ++ [RPAREN] →
    decode vb = Ok v → check_version v = Ok pv → decode inner = Ok d →
    parses_as line (v, Some d, fmt_paren, pv || check_date d)
| shape_space vb db v d pv p :
    contains TAB (strip line) = false →
    strip line = vb ++ SPACE :: db →
    startswith [LPAREN] db && endswith [RPAREN] db = false →
    decode vb = Ok v → check_version v = Ok pv → decode db = Ok d →
    lazy_or (Ok pv) (d' ← decode (slice_1_m1 db); Ok (check_date d')) = Ok p →
    parses_as line (v, Some d, fmt_space, p)
| shape_bare v pv :
    contains TAB (strip line) = false →
    contains SPACE (strip line) = false →
    decode (strip line) = Ok v → check_version v = Ok pv →
    parses_as line (v, None, fmt_bare, pv).

(** The part the three operations share: read, skip the header, parse. *)
Definition read_leading (path : str) : TreeM (list bytes * nat * parsed) :=
  lines ← get_file_lines path;
  i ← lift (skip_header lines);
  line ← lift (getitem lines i);
  hdr ← lift (parse_version_line line);
  mret (lines, i, hdr).

(** [t'] is [t] after one read of [path]: same files, no write recorded. *)
Definition unwritten (path : str) (t t' : Tree) : Prop :=
  files t' = files t ∧ calls t' = calls t ++ [GetFileLines path].

(** A line made of ['='] characters only, white space around it apart. *)
Definition is_equals_rule (line : bytes) : bool :=
  match strip line with
  | [] => false
  | cs => forallb (Byte.eqb "="%byte) cs
  end.

(** Lines as [split_lines] yields them: each ends with its line feed and
    holds no other, but for a last line that may lack one. *)
Inductive lines_ok : list bytes → Prop :=
| lines_ok_nil : lines_ok []
| lines_ok_last body :
    contains LF body = false → body ≠ [] → lines_ok [body]
| lines_ok_cons body rest :
    contains LF body = false → lines_ok rest → lines_ok ((body ++ [LF]) :: rest).

(** Where the header skipper resumes after the title: past line 1 when that
    line begins with six ['='], at line 1 otherwise. *)
Definition after_title (l1 : bytes) : nat :=
  if startswith (B "======") l1 then 2 else 1.

(** Line 0 is a title. *)
Definition titled (lines : list bytes) : Prop :=
  ∃ l0, lines !! 0 = Some l0 ∧ startswith (B "Changelog for ") l0 = true.

(** [i] is where the header is: 0 without a title; with one, the first
    line that is not blank from [after_title] on. *)
Definition header_at (lines : list bytes) (i : nat) : Prop :=
  (∃ l0, lines !! 0 = Some l0
         ∧ startswith (B "Changelog for ") l0 = false ∧ i = 0)
  ∨ (∃ l1 line,
        titled lines
        ∧ lines !! 1 = Some l1
        ∧ after_title l1 ≤ i
        ∧ (∀ j l, after_title l1 ≤ j < i → lines !! j = Some l → is_blank l = true)
        ∧ lines !! i = Some line
        ∧ is_blank line = false).

(** A visible ASCII character: ['!'] to ['~']. *)
Definition is_visible (c : byte) : bool := in_range 33 126 c.

(** Text made of visible ASCII characters only. *)
Definition is_token (s : str) : bool := forallb is_visible (encode s).

(** The file a call on the tree names. *)
Definition call_path (c : tree_call) : str :=
  match c with
  | GetFileLines path => path
  | PutFileBytesNonAtomic path _ => path
  end.


(** From [t] to [t'] only the file at [path] was touched: every other file
    is as it was, and every call added to the record names [path]. *)
Definition touches_only (path : str) (t t' : Tree) : Prop :=
  (∀ other, other ≠ path → files t' !! other = files t !! other)
  ∧ ∃ cs, calls t' = calls t ++ cs ∧ Forall (λ c, call_path c = path) cs.

(** * Properties *)

(** ** Bytes *)

Lemma byte_eqb_eq (a b : byte) : Byte.eqb a b = true ↔ a = b.
Proof.
  split; [apply byte_dec_bl | apply byte_dec_lb].
Qed.

Lemma byte_eqb_refl (a : byte) : Byte.eqb a a = true.
Proof. by apply byte_dec_lb. Qed.

Lemma cut_some sep s h t : cut sep s = (h, Some t) → s = h ++ sep :: t.
Proof.
  revert h. induction s as [|c s IH]; intros h; simpl; [done|].
  destruct (Byte.eqb c sep) eqn:E.
  - apply byte_eqb_eq in E. intros [= <- <-]. by subst.
  - destruct (cut sep s) as [h' t'] eqn:C. intros [= <- ->].
    simpl. f_equal. by apply IH.
Qed.

Lemma cut_none sep s h : cut sep s = (h, None) → h = s ∧ contains sep s = false.
Proof.
  revert h. induction s as [|c s IH]; intros h; simpl; [by intros [= <-]|].
  destruct (Byte.eqb c sep) eqn:E; [done|].
  destruct (cut sep s) as [h' t'] eqn:C. intros [= <- ->].
  destruct (IH h' eq_refl) as [-> Hc]. split; [done|].
  unfold contains in *. simpl. rewrite Hc.
  destruct (Byte.eqb sep c) eqn:E'; [|done].
  apply byte_eqb_eq in E'. subst. by rewrite byte_eqb_refl in E.
Qed.

Lemma contains_cut sep s :
  contains sep s = true → ∃ h t, cut sep s = (h, Some t).
Proof.
  intros H. destruct (cut sep s) as [h [t|]] eqn:C; [by eauto|].
  apply cut_none in C as [_ C]. congruence.
Qed.

Lemma split1_contains sep s :
  contains sep s = true →
  ∃ h t, split1 sep s = [h; t] ∧ cut sep s = (h, Some t).
Proof.
  intros H. destruct (contains_cut _ _ H) as (h & t & C).
  exists h, t. unfold split1. by rewrite C.
Qed.

Lemma paren_wrapped date :
  startswith [LPAREN] date && endswith [RPAREN] date = true →
  date = LPAREN :: slice_1_m1 date ++ [RPAREN].
Proof.
  intros [Hs He]%andb_true_iff.
  destruct date as [|c r]; [done|].
  simpl in Hs. rewrite andb_true_r in Hs. apply byte_eqb_eq in Hs as <-.
  unfold endswith in He. unfold slice_1_m1. simpl tl.
  destruct r as [|x r'] using rev_ind; [done|].
  rewrite removelast_last.
  change (LPAREN :: r' ++ [x]) with ((LPAREN :: r') ++ [x]) in He.
  rewrite rev_unit in He. simpl in He.
  rewrite andb_true_r in He. by apply byte_eqb_eq in He as <-.
Qed.

(** ** Text *)

Lemma decode_encode b s : decode b = Ok s → encode s = b.
Proof.
  unfold decode, encode. destruct (utf8_valid b); [|done].
  intros [= <-]. apply list_byte_of_string_of_list_byte.
Qed.

Lemma encode_app s1 s2 : encode (s1 +:+ s2) = encode s1 ++ encode s2.
Proof.
  unfold encode, list_byte_of_string.
  induction s1 as [|c s1 IH]; simpl; [done|]. by rewrite IH.
Qed.

Lemma app_empty_r (s : str) : s +:+ "" = s.
Proof.
  induction s as [|c s IH]; [done|].
  change (String c (s +:+ "") = String c s). by rewrite IH.
Qed.

Lemma pyformat_tab v d :
  pyformat fmt_tab (fields v d)
  = Ok (str_of_pyval v +:+ tab_str +:+ str_of_pyval d).
Proof. cbn. by rewrite app_empty_r. Qed.

Lemma pyformat_paren v d :
  pyformat fmt_paren (fields v d)
  = Ok (str_of_pyval v +:+ " (" +:+ str_of_pyval d +:+ ")").
Proof. reflexivity. Qed.

Lemma pyformat_space v d :
  pyformat fmt_space (fields v d)
  = Ok (str_of_pyval v +:+ " " +:+ str_of_pyval d).
Proof. cbn. by rewrite app_empty_r. Qed.

Lemma pyformat_bare v d :
  pyformat fmt_bare (fields v d) = Ok (str_of_pyval v).
Proof. cbn. by rewrite app_empty_r. Qed.

Lemma bind_ok {A C} (r : result A) (k : A → result C) c :
  r ≫= k = Ok c → ∃ a, r = Ok a ∧ k a = Ok c.
Proof. destruct r as [a|e]; [by exists a | done]. Qed.

Lemma lazy_or_ok a b p :
  lazy_or a b = Ok p →
  ∃ pa, a = Ok pa ∧ (if pa then p = true else b = Ok p).
Proof.
  unfold lazy_or. intros (pa & -> & H)%bind_ok. exists pa. split; [done|].
  destruct pa; [by injection H | done].
Qed.

Lemma parse_version_line_inv line hdr :
  parse_version_line line = Ok hdr → parses_as line hdr.
Proof.
  unfold parse_version_line.
  destruct (contains TAB (strip line)) eqn:Ht.
  { destruct (split1_contains _ _ Ht) as (vb & db & -> & Hc%cut_some).
    intros (p & Hp & (v & Hv & (d & Hd & [= <-])%bind_ok)%bind_ok)%bind_ok.
    apply lazy_or_ok in Hp as (pv & Hpv & Hp).
    rewrite Hv in Hpv. simpl in Hpv.
    assert (p = pv || check_date d) as ->.
    { destruct pv; [done|]. rewrite Hd in Hp. by injection Hp. }
    by eapply shape_tab. }
  destruct (contains SPACE (strip line)) eqn:Hs.
  { destruct (split1_contains _ _ Hs) as (vb & db & -> & Hc%cut_some).
    intros (p & Hp & H)%bind_ok.
    pose proof Hp as (pv & Hpv & Hp')%lazy_or_ok.
    destruct (startswith [LPAREN] db && endswith [RPAREN] db) eqn:Hparen.
    - apply bind_ok in H as (v & Hv & (d & Hd & [= <-])%bind_ok).
      rewrite Hv in Hpv. simpl in Hpv.
      assert (p = pv || check_date d) as ->.
      { destruct pv; [done|]. rewrite Hd in Hp'. by injection Hp'. }
      apply paren_wrapped in Hparen. rewrite Hparen in Hc.
      by eapply shape_paren.
    - apply bind_ok in H as (v & Hv & (d & Hd & [= <-])%bind_ok).
      rewrite Hv in Hpv, Hp. simpl in Hpv, Hp. rewrite Hpv in Hp.
      by eapply shape_space. }
  intros (p & (v & Hv & Hp)%bind_ok & (v' & Hv' & [= <-])%bind_ok)%bind_ok.
  rewrite Hv in Hv'. injection Hv' as <-.
  by eapply shape_bare.
Qed.

(** ** Running the operations *)

Lemma skip_blank_bound rest i n :
  skip_blank rest i = Ok n → i ≤ n < i + length rest.
Proof.
  revert i. induction rest as [|l rest IH]; intros i; simpl; [done|].
  destruct (is_blank l).
  - intros H%IH. lia.
  - intros [= <-]. lia.
Qed.

Lemma getitem_ok {A} (l : list A) i x : getitem l i = Ok x ↔ l !! i = Some x.
Proof.
  unfold getitem. destruct (l !! i); split; intros [=]; by subst.
Qed.

Lemma skip_header_bound lines i :
  skip_header lines = Ok i → i < length lines.
Proof.
  unfold skip_header.
  intros (l0 & H0%getitem_ok%lookup_lt_Some & H)%bind_ok.
  destruct (startswith (B "Changelog for ") l0); [|injection H as <-; lia].
  apply bind_ok in H as (l1 & H1%getitem_ok%lookup_lt_Some & H).
  apply skip_blank_bound in H. rewrite length_drop in H.
  destruct (startswith (B "======") l1); lia.
Qed.

Lemma getitem_skip_header lines i :
  skip_header lines = Ok i → ∃ line, getitem lines i = Ok line ∧ lines !! i = Some line.
Proof.
  intros H%skip_header_bound. apply lookup_lt_is_Some in H as [line H].
  exists line. unfold getitem. by rewrite H.
Qed.

Lemma read_leading_state path t :
  (read_leading path t).2 = after_read path t.
Proof.
  unfold read_leading, get_file_lines, mbind, tree_bind, lift, after_read.
  destruct (files t !! path) as [content|]; [|done].
  destruct (skip_header (split_lines content)) as [i|]; [|done].
  destruct (getitem (split_lines content) i) as [line|]; [|done].
  by destruct (parse_version_line line).
Qed.

Lemma read_leading_ok path t lines i hdr t' :
  read_leading path t = (Ok (lines, i, hdr), t') →
  ∃ line, leading_entry t path lines i line hdr.
Proof.
  unfold read_leading, get_file_lines, mbind, tree_bind, lift, leading_entry.
  destruct (files t !! path) as [content|]; [|done].
  destruct (skip_header (split_lines content)) as [i'|] eqn:Hi; [|done].
  destruct (getitem_skip_header _ _ Hi) as (line & -> & Hl).
  destruct (parse_version_line line) as [hdr'|] eqn:Hp; [|done].
  intros [= <- <- <- _]. by exists line, content.
Qed.

Lemma leading_entry_read path t lines i line hdr :
  leading_entry t path lines i line hdr →
  read_leading path t = (Ok (lines, i, hdr), after_read path t).
Proof.
  intros (content & Hf & -> & Hi & Hl & Hp).
  unfold read_leading, get_file_lines, mbind, tree_bind, lift.
  rewrite Hf, Hi. unfold getitem. by rewrite Hl, Hp.
Qed.

Lemma news_find_pending_read path t :
  news_find_pending path t
  = (x ← read_leading path;
     let '(_, _, (version, _, _, pending)) := (x : list bytes * nat * parsed) in
     if negb pending then raise NoUnreleasedChanges else mret version) t.
Proof.
  unfold news_find_pending, read_leading, get_file_lines, mbind, tree_bind, lift.
  destruct (files t !! path) as [content|]; [|done].
  destruct (skip_header (split_lines content)) as [i|]; [|done].
  destruct (getitem (split_lines content) i) as [line|]; [|done].
  by destruct (parse_version_line line) as [[[[??]?]?]|].
Qed.

Lemma news_find_pending_state path t :
  (news_find_pending path t).2 = after_read path t.
Proof.
  rewrite news_find_pending_read. unfold mbind, tree_bind.
  pose proof (read_leading_state path t) as H.
  destruct (read_leading path t) as [[[[lines i] [[[v d] f] p]]|e] t']; simpl in *;
    [|done].
  by destruct p.
Qed.

(** The case where a step raised: the tree was read and nothing more. *)
Ltac raised := intros [= <- <-]; left; eauto.

Lemma setitem_ok {A} (l : list A) i x y :
  l !! i = Some y → setitem l i x = Ok (<[i := x]> l).
Proof. unfold setitem. by intros ->. Qed.

Lemma string_eqb_true (a b : str) : String.eqb a b = true ↔ a = b.
Proof. apply String.eqb_eq. Qed.

(** Every way [news_mark_released] can end. *)
Lemma news_mark_released_inv path ev rd t r t' :
  news_mark_released path ev rd t = (r, t') →
  (∃ e, r = Raise e ∧ t' = after_read path t)
  ∨ (∃ lines i line d fmt cl header,
        leading_entry t path lines i line (ev, d, fmt, true)
        ∧ collect_change_lines (drop (i + 1) lines) [] = Ok cl
        ∧ pyformat fmt (fields (PyStr ev) (PyStr (strftime_Ymd rd))) = Ok header
        ∧ r = Ok (join_str cl)
        ∧ t' = after_write path (<[i := encode header ++ [LF]]> lines) t).
Proof.
  unfold news_mark_released, get_file_lines, mbind, tree_bind, lift, raise.
  fold (after_read path t).
  destruct (files t !! path) as [content|] eqn:Hf;
    [|raised].
  destruct (skip_header (split_lines content)) as [i|] eqn:Hi;
    [|raised].
  destruct (getitem_skip_header _ _ Hi) as (line & -> & Hl).
  destruct (parse_version_line line) as [[[[v d] fmt] p]|] eqn:Hp;
    [|raised].
  destruct p; simpl negb; cbv iota; [|raised].
  destruct (String.eqb ev v) eqn:Hv; simpl negb; cbv iota;
    [|raised].
  apply string_eqb_true in Hv as <-.
  destruct (collect_change_lines _ _) as [cl|] eqn:Hc;
    [|raised].
  destruct (pyformat fmt _) as [header|] eqn:Hh;
    [|raised].
  rewrite (setitem_ok _ _ _ _ Hl).
  intros [= <- <-]. right.
  exists (split_lines content), i, line, d, fmt, cl, header.
  split; [by exists content|]. repeat split; try done.
  unfold after_write, after_read. simpl. by rewrite <- app_assoc.
Qed.

(** Every way [news_add_pending] can end. *)
Lemma news_add_pending_inv path new_version t r t' :
  news_add_pending path new_version t = (r, t') →
  (∃ e, r = Raise e ∧ t' = after_read path t)
  ∨ (∃ lines i line v d fmt header,
        leading_entry t path lines i line (v, d, fmt, false)
        ∧ pyformat fmt (fields (PyStr new_version) (PyStr "UNRELEASED")) = Ok header
        ∧ r = Ok tt
        ∧ t' = after_write path
                 (list_insert_at (list_insert_at lines i [LF]) i
                    (encode header ++ [LF])) t).
Proof.
  unfold news_add_pending, get_file_lines, mbind, tree_bind, lift, raise.
  fold (after_read path t).
  destruct (files t !! path) as [content|] eqn:Hf;
    [|raised].
  destruct (skip_header (split_lines content)) as [i|] eqn:Hi;
    [|raised].
  destruct (getitem_skip_header _ _ Hi) as (line & -> & Hl).
  destruct (parse_version_line line) as [[[[v d] fmt] p]|] eqn:Hp;
    [|raised].
  destruct p; [raised|].
  destruct (pyformat fmt _) as [header|] eqn:Hh;
    [|raised].
  intros [= <- <-]. right.
  exists (split_lines content), i, line, v, d, fmt, header.
  split; [by exists content|]. repeat split; try done.
  unfold after_write, after_read, put_file_bytes_non_atomic. simpl.
  by rewrite <- app_assoc.
Qed.


Lemma news_add_pending_run path new_version t lines i line v d fmt header :
  leading_entry t path lines i line (v, d, fmt, false) →
  pyformat fmt (fields (PyStr new_version) (PyStr "UNRELEASED")) = Ok header →
  news_add_pending path new_version t
  = (Ok tt,
     after_write path
       (list_insert_at (list_insert_at lines i [LF]) i (encode header ++ [LF])) t).
Proof.
  intros (content & Hf & -> & Hi & Hl & Hp) Hh.
  unfold news_add_pending, get_file_lines, mbind, tree_bind, lift, raise.
  rewrite Hf, Hi. apply getitem_ok in Hl as Hg. rewrite Hg, Hp.
  cbv beta iota. rewrite Hh.
  unfold after_write, put_file_bytes_non_atomic. simpl.
  by rewrite <- app_assoc.
Qed.

Lemma news_add_pending_exists path new_version t lines i line v d fmt :
  leading_entry t path lines i line (v, d, fmt, true) →
  news_add_pending path new_version t
  = (Raise (PendingExists v d), after_read path t).
Proof.
  intros (content & Hf & -> & Hi & Hl & Hp).
  unfold news_add_pending, get_file_lines, mbind, tree_bind, lift, raise.
  rewrite Hf, Hi. apply getitem_ok in Hl as Hg. by rewrite Hg, Hp.
Qed.

(** The template of an accepted line renders with any two values. *)
Lemma parses_as_template line v d fmt p a b :
  parses_as line (v, d, fmt, p) →
  (fmt = fmt_tab
   ∧ pyformat fmt (fields a b) = Ok (str_of_pyval a +:+ tab_str +:+ str_of_pyval b))
  ∨ (fmt = fmt_paren
     ∧ pyformat fmt (fields a b)
       = Ok (str_of_pyval a +:+ " (" +:+ str_of_pyval b +:+ ")"))
  ∨ (fmt = fmt_space
     ∧ pyformat fmt (fields a b) = Ok (str_of_pyval a +:+ " " +:+ str_of_pyval b))
  ∨ (fmt = fmt_bare ∧ pyformat fmt (fields a b) = Ok (str_of_pyval a)).
Proof.
  inversion 1; subst.
  - left. split; [done|]. apply pyformat_tab.
  - right; left. split; [done|]. apply pyformat_paren.
  - right; right; left. split; [done|]. apply pyformat_space.
  - right; right; right. split; [done|]. apply pyformat_bare.
Qed.

(** ** The change block *)


Lemma encode_join_str (parts : list str) :
  encode (join_str parts) = concat (map encode parts).
Proof.
  unfold join_str.
  induction parts as [|x [|y parts] IH].
  - done.
  - simpl. by rewrite app_nil_r.
  - change (String.concat "" (x :: y :: parts))
      with (x +:+ "" +:+ String.concat "" (y :: parts)).
    rewrite !encode_app, IH. done.
Qed.


(** ** Reads and writes *)

(** The first and third scenarios. *)
Example find_pending_returns_version :
  news_find_pending "NEWS" (one_file "NEWS" doc_pending)
  = (Ok "1.2.3", after_read "NEWS" (one_file "NEWS" doc_pending)).
Proof. vm_compute; reflexivity. Qed.

Example find_pending_released :
  news_find_pending "NEWS" (one_file "NEWS" (B "1.2.3 2024-05-01" ++ [LF]))
  = (Raise NoUnreleasedChanges,
     after_read "NEWS" (one_file "NEWS" (B "1.2.3 2024-05-01" ++ [LF]))).
Proof. vm_compute; reflexivity. Qed.

Lemma after_read_unwritten path t : unwritten path t (after_read path t).
Proof. done. Qed.

Lemma validate_state self t : (validate self t).2 = after_read (path self) t.
Proof.
  unfold validate, find_pending.
  pose proof (news_find_pending_state (path self) t) as H.
  destruct (news_find_pending (path self) t) as [[v|e] t']; simpl in *; [done|].
  by destruct e.
Qed.

(** C10: [find_pending] and [validate] never write.  Whatever they return or
    raise, the files of the tree afterwards are the files before, and the
    one call they made on the tree is the read of [path]. *)
Theorem find_pending_and_validate_only_read (self : NewsFile) (t : Tree) :
  unwritten (path self) t (news_find_pending (path self) t).2
  ∧ unwritten (path self) t (find_pending self t).2
  ∧ unwritten (path self) t (validate self t).2.
Proof.
  unfold find_pending. rewrite news_find_pending_state, validate_state.
  repeat split.
Qed.

(** C7: a failing [find_pending], [mark_released] or [add_pending] writes
    nothing.  When the operation raises, whatever the exception, the files
    of the tree are unchanged and the only call made on it is the read. *)
Theorem failure_writes_nothing (path : str) (t : Tree) :
  (∀ e t', news_find_pending path t = (Raise e, t') → unwritten path t t')
  ∧ (∀ expected_version release_date e t',
        news_mark_released path expected_version release_date t = (Raise e, t') →
        unwritten path t t')
  ∧ (∀ new_version e t',
        news_add_pending path new_version t = (Raise e, t') →
        unwritten path t t').
Proof.
  split; [|split].
  - intros e t' H. pose proof (news_find_pending_state path t) as Hs.
    rewrite H in Hs. simpl in Hs. subst. apply after_read_unwritten.
  - intros ev rd e t' H.
    apply news_mark_released_inv in H as [(e' & _ & ->)|H].
    + apply after_read_unwritten.
    + by destruct H as (? & ? & ? & ? & ? & ? & ? & _ & _ & _ & ? & _).
  - intros nv e t' H.
    apply news_add_pending_inv in H as [(e' & _ & ->)|H].
    + apply after_read_unwritten.
    + by destruct H as (? & ? & ? & ? & ? & ? & ? & _ & _ & ? & _).
Qed.

(** A released entry, a pending entry whose version is not the expected one,
    and a pending entry: one failure of each operation. *)
Lemma failure_writes_nothing_witness :
  let released := one_file "NEWS" doc_released in
  let pending := one_file "NEWS" doc_pending in
  (news_find_pending "NEWS" released
   = (Raise NoUnreleasedChanges, after_read "NEWS" released)
   ∧ unwritten "NEWS" released (after_read "NEWS" released))
  ∧ (news_mark_released "NEWS" "1.2.4" (mkdate 2024 5 1) pending
     = (Raise (AssertionError "unexpected version: 1.2.3 != 1.2.4"),
        after_read "NEWS" pending)
     ∧ unwritten "NEWS" pending (after_read "NEWS" pending))
  ∧ (news_add_pending "NEWS" "1.3.0" pending
     = (Raise (PendingExists "1.2.3" (Some "UNRELEASED")),
        after_read "NEWS" pending)
     ∧ unwritten "NEWS" pending (after_read "NEWS" pending)).
Proof.
  cbv zeta.
  split; [|split].
  - split; [vm_compute; reflexivity|].
    apply (proj1 (failure_writes_nothing "NEWS" (one_file "NEWS" doc_released))
             NoUnreleasedChanges).
    vm_compute; reflexivity.
  - split; [vm_compute; reflexivity|].
    apply (proj1 (proj2 (failure_writes_nothing "NEWS" (one_file "NEWS" doc_pending)))
             "1.2.4" (mkdate 2024 5 1)
             (AssertionError "unexpected version: 1.2.3 != 1.2.4")).
    vm_compute; reflexivity.
  - split; [vm_compute; reflexivity|].
    apply (proj2 (proj2 (failure_writes_nothing "NEWS" (one_file "NEWS" doc_pending)))
             "1.3.0" (PendingExists "1.2.3" (Some "UNRELEASED"))).
    vm_compute; reflexivity.
Defined.

(** ** Inserting lines *)

Lemma list_insert_at_twice {A} (l : list A) (i : nat) x y :
  i ≤ length l →
  list_insert_at (list_insert_at l i x) i y = take i l ++ y :: x :: drop i l.
Proof.
  intros Hi. unfold list_insert_at.
  rewrite take_app_length' by (rewrite length_take; lia).
  by rewrite drop_app_length' by (rewrite length_take; lia).
Qed.


Lemma inserted_before {A} (l : list A) (i : nat) x y (j : nat) :
  i ≤ length l → j < i → (take i l ++ y :: x :: drop i l) !! j = l !! j.
Proof.
  intros Hi Hj. rewrite lookup_app_l by (rewrite length_take; lia).
  by apply lookup_take_lt.
Qed.




(** ** Marking the pending entry released *)




(** ** Adding a pending entry *)




(** C2: a leading line ["1.3.0 UNRELEASED\n"] is not taken for a pending
    entry, so [add_pending] raises nothing and stacks a second entry on it. *)
Theorem add_pending_stacks_on_space_unreleased :
  let t := one_file "NEWS" (B "1.3.0 UNRELEASED" ++ [LF]) in
  news_add_pending "NEWS" "1.4.0" t
  = (Ok tt,
     after_write "NEWS"
       [B "1.4.0 UNRELEASED" ++ [LF]; [LF]; B "1.3.0 UNRELEASED" ++ [LF]] t).
Proof. vm_compute; reflexivity. Qed.

(** ** Pending or released *)

(** C1: the space-separated line ["1.2.3 UNRELEASED\n"] has a digits-and-dots
    version and the date [UNRELEASED], and is classified as not pending. *)
Theorem space_separated_unreleased_not_pending :
  fullmatch_digits_dots "1.2.3" = true
  ∧ parse_version_line (B "1.2.3 UNRELEASED" ++ [LF])
    = Ok ("1.2.3", Some "UNRELEASED", fmt_space, false).
Proof. split; vm_compute; reflexivity. Qed.

Lemma check_version_digits v pv :
  fullmatch_digits_dots v = true → check_version v = Ok pv → pv = false.
Proof.
  unfold check_version. intros Hm.
  destruct (String.eqb v "UNRELEASED") eqn:E1.
  { apply String.eqb_eq in E1 as ->. discriminate Hm. }
  destruct (String.eqb v "%(version)s") eqn:E2.
  { apply String.eqb_eq in E2 as ->. discriminate Hm. }
  rewrite Hm. simpl. by intros [= <-].
Qed.

Lemma check_date_true d : check_date d = true ↔ d = "UNRELEASED".
Proof.
  unfold check_date. destruct (String.eqb d "UNRELEASED") eqn:E.
  - by apply String.eqb_eq in E.
  - apply String.eqb_neq in E. split; [done | by intros ->].
Qed.

(** X9: an accepted line whose version is made of digits and dots and whose
    shape is tab-separated, parenthesized or version-only is pending exactly
    when its date is [UNRELEASED]. *)
Lemma pending_iff_unreleased_date line v d fmt p :
  parse_version_line line = Ok (v, d, fmt, p) →
  fullmatch_digits_dots v = true →
  fmt ≠ fmt_space →
  p = true ↔ d = Some "UNRELEASED".
Proof.
  intros H%parse_version_line_inv Hm Hfmt.
  inversion H; subst; try done;
    match goal with
    | Hc : check_version v = Ok _ |- _ =>
        rewrite (check_version_digits _ _ Hm Hc)
    end; simpl; [| |done];
    rewrite check_date_true; (split; [by intros -> | by intros [= ->]]).
Qed.

(** ** Rendering what was parsed *)

(** C4, amended: for every accepted header line, the returned template
    rendered with the parsed version and date is, once encoded, the line
    without its leading and trailing white space (line terminator included). *)
Theorem template_reproduces_stripped_line (line : bytes)
    (v : str) (d : option str) (fmt : str) (p : bool) :
  parse_version_line line = Ok (v, d, fmt, p) →
  ∃ s, pyformat fmt (fields (PyStr v) (pyval_of_date d)) = Ok s
       ∧ encode s = strip line.
Proof.
  intros H%parse_version_line_inv.
  inversion H as [vb db v' d' pv Hs Hv Hc Hd
                 |vb inner v' d' pv Ht Hs Hv Hc Hd
                 |vb db v' d' pv p' Ht Hs Hn Hv Hc Hd Hp
                 |v' pv Ht Hsp Hv Hc]; subst; simpl pyval_of_date.
  - eexists; split; [apply pyformat_tab|]. simpl str_of_pyval.
    rewrite !encode_app, (decode_encode _ _ Hv), (decode_encode _ _ Hd).
    by rewrite Hs.
  - eexists; split; [apply pyformat_paren|]. simpl str_of_pyval.
    rewrite !encode_app, (decode_encode _ _ Hv), (decode_encode _ _ Hd).
    by rewrite Hs.
  - eexists; split; [apply pyformat_space|]. simpl str_of_pyval.
    rewrite !encode_app, (decode_encode _ _ Hv), (decode_encode _ _ Hd).
    by rewrite Hs.
  - eexists; split; [apply pyformat_bare|]. simpl str_of_pyval.
    by apply decode_encode.
Qed.

Lemma template_reproduces_stripped_line_witness :
  let line := [SPACE] ++ B "1.2.3 (2024-05-01)" ++ [LF] in
  parse_version_line line = Ok ("1.2.3", Some "2024-05-01", fmt_paren, false)
  ∧ strip line = B "1.2.3 (2024-05-01)"
  ∧ ∃ s, pyformat fmt_paren (fields (PyStr "1.2.3") (pyval_of_date (Some "2024-05-01")))
         = Ok s
         ∧ encode s = strip line.
Proof.
  cbv zeta.
  split; [vm_compute; reflexivity|]. split; [vm_compute; reflexivity|].
  apply (template_reproduces_stripped_line
           ([SPACE] ++ B "1.2.3 (2024-05-01)" ++ [LF])
           "1.2.3" (Some "2024-05-01") fmt_paren false).
  vm_compute; reflexivity.
Defined.

(** An indented header line is accepted, and its template renders to
    neither the line nor the line without its terminator. *)
Lemma template_drops_indentation :
  let line := [SPACE] ++ B "1.2.3 (2024-05-01)" ++ [LF] in
  parse_version_line line = Ok ("1.2.3", Some "2024-05-01", fmt_paren, false)
  ∧ pyformat fmt_paren (fields (PyStr "1.2.3") (PyStr "2024-05-01"))
    = Ok "1.2.3 (2024-05-01)"
  ∧ encode "1.2.3 (2024-05-01)" ≠ line
  ∧ encode "1.2.3 (2024-05-01)" ++ [LF] ≠ line.
Proof.
  cbv zeta. repeat split; try (vm_compute; reflexivity); vm_compute; discriminate.
Qed.

(** ** Malformed versions *)



(** ** Skipping the title *)

Lemma skip_blank_first_text (rest : list bytes) (i m : nat) :
  (∀ j : nat, j < m → ∃ l, rest !! j = Some l ∧ is_blank l = true) →
  (∃ l, rest !! m = Some l ∧ is_blank l = false) →
  skip_blank rest i = Ok (i + m).
Proof.
  revert rest i. induction m as [|m IH]; intros rest i Hblank (l & Hl & Hn).
  - destruct rest as [|l' rest]; [done|]. injection Hl as ->.
    simpl. rewrite Hn. f_equal. lia.
  - destruct rest as [|l' rest]; [done|].
    destruct (Hblank 0) as (l0 & [= <-] & Hb); [lia|].
    simpl. rewrite Hb. rewrite IH; [f_equal; lia| |by exists l].
    intros j Hj. apply (Hblank (S j)). lia.
Qed.

(** C8, amended: when line 0 does not begin with ["Changelog for "],
    [skip_header] returns 0.  When it does, [skip_header] goes past it, past
    line 1 if that line begins with ["======"], and past the blank lines that
    follow, and returns the index of the first line from there on that is
    not blank. *)
Theorem skip_header_index (lines : list bytes) :
  (∀ l0,
      lines !! 0 = Some l0 →
      startswith (B "Changelog for ") l0 = false →
      skip_header lines = Ok 0)
  ∧ (∀ l0 l1 (n : nat),
        lines !! 0 = Some l0 →
        startswith (B "Changelog for ") l0 = true →
        lines !! 1 = Some l1 →
        (if startswith (B "======") l1 then 2 else 1) ≤ n →
        (∀ j : nat, (if startswith (B "======") l1 then 2 else 1) ≤ j < n →
                    ∃ l, lines !! j = Some l ∧ is_blank l = true) →
        (∃ l, lines !! n = Some l ∧ is_blank l = false) →
        skip_header lines = Ok n).
Proof.
  split.
  - intros l0 H0 Hs. unfold skip_header, getitem. rewrite H0.
    cbn [mbind result_bind]. by rewrite Hs.
  - intros l0 l1 n H0 Hs H1 Hk Hblank (l & Hl & Hn).
    unfold skip_header, getitem. rewrite H0. cbn [mbind result_bind].
    rewrite Hs. change (0 + 1) with 1. rewrite H1. cbn [mbind result_bind].
    set (k := if startswith (B "======") l1 then 1 + 1 else 1).
    assert (k = if startswith (B "======") l1 then 2 else 1) as Hk'
      by (subst k; by destruct (startswith (B "======") l1)).
    rewrite <- Hk' in *.
    replace n with (k + (n - k)) by lia.
    apply skip_blank_first_text.
    + intros j Hj. rewrite lookup_drop. apply Hblank. lia.
    + exists l. rewrite lookup_drop. split; [|done].
      rewrite <- Hl. f_equal. lia.
Qed.

(** A title, its underline and one blank line, and a file with no title. *)
Lemma skip_header_index_witness :
  let titled := [B "Changelog for disperse" ++ [LF];
                 B "======================" ++ [LF];
                 [LF];
                 B "1.2.3" ++ [TAB] ++ B "UNRELEASED" ++ [LF]] in
  skip_header [doc_released] = Ok 0 ∧ skip_header titled = Ok 3.
Proof.
  cbv zeta. split.
  - apply (proj1 (skip_header_index [doc_released]) doc_released);
      vm_compute; reflexivity.
  - apply (proj2 (skip_header_index
                    [B "Changelog for disperse" ++ [LF];
                     B "======================" ++ [LF];
                     [LF];
                     B "1.2.3" ++ [TAB] ++ B "UNRELEASED" ++ [LF]])
             (B "Changelog for disperse" ++ [LF])
             (B "======================" ++ [LF]) 3).
    + reflexivity.
    + vm_compute; reflexivity.
    + reflexivity.
    + vm_compute. lia.
    + intros j Hj.
      assert (j = 2) as -> by (vm_compute in Hj; lia).
      exists [LF]. split; reflexivity.
    + eexists. split; [reflexivity | vm_compute; reflexivity].
Defined.

(** An underline of five ['='] is not skipped: the index returned is the
    underline's own. *)
Lemma skip_header_short_rule :
  let lines := [B "Changelog for x" ++ [LF]; B "=====" ++ [LF]; B "1.0" ++ [LF]] in
  startswith (B "Changelog for ") (B "Changelog for x" ++ [LF]) = true
  ∧ lines !! 1 = Some (B "=====" ++ [LF])
  ∧ is_equals_rule (B "=====" ++ [LF]) = true
  ∧ skip_header lines = Ok 1.
Proof. cbv zeta. repeat split. Qed.

(** ** Reading back what was written *)

Lemma contains_app sep (a b : bytes) :
  contains sep (a ++ b) = contains sep a || contains sep b.
Proof. apply existsb_app. Qed.

Lemma contains_rev sep (s : bytes) : contains sep (rev s) = contains sep s.
Proof.
  induction s as [|c s IH]; [done|].
  simpl rev. rewrite contains_app, IH. simpl. by rewrite orb_false_r, orb_comm.
Qed.

Lemma split_lines_from_line cur body rest :
  contains LF body = false →
  split_lines_from cur (body ++ LF :: rest)
  = (rev cur ++ body ++ [LF]) :: split_lines_from [] rest.
Proof.
  revert cur. induction body as [|c body IH]; intros cur Hb; simpl.
  - done.
  - simpl in Hb. apply orb_false_iff in Hb as [Hc Hb].
    destruct (Byte.eqb c LF) eqn:E.
    { apply byte_eqb_eq in E as ->. by rewrite byte_eqb_refl in Hc. }
    rewrite IH by done. simpl. by rewrite <- app_assoc.
Qed.

Lemma split_lines_from_last cur body :
  contains LF body = false →
  split_lines_from cur body
  = match rev cur ++ body with [] => [] | l => [l] end.
Proof.
  revert cur. induction body as [|c body IH]; intros cur Hb; simpl.
  - rewrite app_nil_r. destruct cur as [|x cur]; [done|].
    simpl. by destruct (rev cur).
  - simpl in Hb. apply orb_false_iff in Hb as [Hc Hb].
    destruct (Byte.eqb c LF) eqn:E.
    { apply byte_eqb_eq in E as ->. by rewrite byte_eqb_refl in Hc. }
    rewrite IH by done. simpl. by rewrite <- app_assoc.
Qed.

(** Well-formed lines are what reading their concatenation gives. *)
Lemma split_lines_join lines :
  lines_ok lines → split_lines (join_bytes lines) = lines.
Proof.
  unfold split_lines, join_bytes.
  induction 1 as [|body Hb Hne|body rest Hb _ IH]; simpl.
  - done.
  - rewrite app_nil_r, split_lines_from_last by done. simpl.
    by destruct body.
  - rewrite <- app_assoc. simpl.
    by rewrite split_lines_from_line, IH.
Qed.

Lemma split_lines_from_ok cur s :
  contains LF cur = false → lines_ok (split_lines_from cur s).
Proof.
  revert cur. induction s as [|c s IH]; intros cur Hc; simpl.
  - destruct cur as [|x cur]; [constructor|].
    apply lines_ok_last; [by rewrite contains_rev|].
    simpl. by destruct (rev cur).
  - destruct (Byte.eqb c LF) eqn:E.
    + apply byte_eqb_eq in E as ->. simpl.
      apply lines_ok_cons; [by rewrite contains_rev | by apply IH].
    + apply IH. simpl. rewrite Hc, orb_false_r.
      destruct (Byte.eqb LF c) eqn:E'; [|done].
      apply byte_eqb_eq in E' as <-. by rewrite byte_eqb_refl in E.
Qed.

Lemma split_lines_ok s : lines_ok (split_lines s).
Proof. by apply split_lines_from_ok. Qed.

(** Writing back the lines just read changes nothing. *)
Lemma join_split_lines s : join_bytes (split_lines s) = s.
Proof.
  unfold join_bytes, split_lines.
  enough (∀ cur, concat (split_lines_from cur s) = rev cur ++ s) as H
    by apply (H []).
  induction s as [|c s IH]; intros cur; simpl.
  - destruct cur as [|x cur]; [done|]. simpl. by rewrite !app_nil_r.
  - destruct (Byte.eqb c LF); simpl; rewrite IH; simpl;
      by rewrite <- app_assoc.
Qed.

Lemma lines_ok_lookup lines (i : nat) line :
  lines_ok lines → lines !! i = Some line →
  ∃ body, contains LF body = false ∧ (line = body ∨ line = body ++ [LF]).
Proof.
  intros H. revert i. induction H as [|body Hb Hne|body rest Hb _ IH]; intros i.
  - done.
  - destruct i; [|done]. intros [= <-]. eauto.
  - destruct i; [intros [= <-]; eauto | apply IH].
Qed.

Lemma lines_ok_set lines (i : nat) h :
  lines_ok lines → i < length lines → contains LF h = false →
  lines_ok (<[i := h ++ [LF]]> lines).
Proof.
  intros H. revert i.
  induction H as [|body Hb Hne|body rest Hb Hrest IH]; intros i Hi Hh; simpl in *.
  - lia.
  - destruct i; [|simpl in Hi; lia]. simpl. apply lines_ok_cons; [done|constructor].
  - destruct i; simpl.
    + by apply lines_ok_cons.
    + apply lines_ok_cons; [done|]. apply IH; [lia|done].
Qed.

Lemma lines_ok_add lines (i : nat) h :
  lines_ok lines → i < length lines → contains LF h = false →
  lines_ok (take i lines ++ (h ++ [LF]) :: [LF] :: drop i lines).
Proof.
  intros H. revert i.
  assert (∀ rest, lines_ok rest → lines_ok ((h ++ [LF]) :: [LF] :: rest)
                  ∨ contains LF h = true) as Hfront.
  { intros rest Hrest. destruct (contains LF h) eqn:Hh; [by right|left].
    apply lines_ok_cons; [done|]. by apply (lines_ok_cons []). }
  induction H as [|body Hb Hne|body rest Hb Hrest IH]; intros i Hi Hh; simpl in *.
  - lia.
  - destruct i; [|simpl in Hi; lia]. simpl.
    destruct (Hfront [body]) as [?|?]; [by apply lines_ok_last|done|congruence].
  - destruct i; simpl.
    + destruct (Hfront ((body ++ [LF]) :: rest)) as [?|?];
        [by apply lines_ok_cons|done|congruence].
    + apply lines_ok_cons; [done|]. apply IH; [lia|done].
Qed.

Lemma lstrip_snoc_space s c :
  is_space c = true →
  lstrip (s ++ [c]) = match lstrip s with [] => [] | r => r ++ [c] end.
Proof.
  intros Hc. induction s as [|x s IH]; simpl.
  - by rewrite Hc.
  - destruct (is_space x); [done|]. done.
Qed.

Lemma rstrip_snoc_space s c : is_space c = true → rstrip (s ++ [c]) = rstrip s.
Proof.
  intros Hc. unfold rstrip. rewrite rev_unit. simpl. by rewrite Hc.
Qed.

Lemma contains_lstrip sep s : contains sep s = false → contains sep (lstrip s) = false.
Proof.
  induction s as [|x s IH]; simpl; [done|].
  intros [Hx Hs]%orb_false_iff. destruct (is_space x); [by apply IH|].
  simpl. by rewrite Hx, Hs.
Qed.

Lemma contains_rstrip sep s : contains sep s = false → contains sep (rstrip s) = false.
Proof.
  intros H. unfold rstrip. rewrite contains_rev. apply contains_lstrip.
  by rewrite contains_rev.
Qed.

(** A header line's text holds no line feed once stripped. *)
Lemma strip_line_no_lf body :
  contains LF body = false →
  contains LF (strip body) = false ∧ contains LF (strip (body ++ [LF])) = false.
Proof.
  intros Hb. unfold strip. split.
  - by apply contains_rstrip, contains_lstrip.
  - rewrite lstrip_snoc_space by done.
    pose proof (contains_lstrip LF body Hb) as Hl.
    destruct (lstrip body) as [|x r] eqn:E; [done|].
    rewrite rstrip_snoc_space by done. by apply contains_rstrip.
Qed.

Lemma parsed_version_no_lf line v d fmt p :
  contains LF (strip line) = false →
  parses_as line (v, d, fmt, p) →
  contains LF (encode v) = false.
Proof.
  intros Hs H.
  inversion H as [vb db v' d' pv Hl Hv Hc Hd
                 |vb inner v' d' pv Ht Hl Hv Hc Hd
                 |vb db v' d' pv p' Ht Hl Hn Hv Hc Hd Hp
                 |v' pv Ht Hsp Hv Hc]; subst;
    rewrite (decode_encode _ _ Hv); [| | |done];
    rewrite Hl, contains_app in Hs; by apply orb_false_iff in Hs as [? _].
Qed.

Lemma digit_no_lf n : contains LF (encode (String (digit n) "")) = false.
Proof.
  unfold digit. pose proof (Nat.mod_upper_bound n 10) as H.
  destruct (n mod 10) as [|[|[|[|[|[|[|[|[|[|k]]]]]]]]]]; try reflexivity. lia.
Qed.

Lemma strftime_no_lf d : contains LF (encode (strftime_Ymd d)) = false.
Proof.
  unfold strftime_Ymd, digits4, digits2.
  repeat match goal with
         | |- context [String (digit ?n) ?s] =>
             lazymatch s with
             | "" => fail
             | _ => change (String (digit n) s) with (String (digit n) "" +:+ s)
             end
         end.
  rewrite !encode_app, !contains_app, !digit_no_lf. reflexivity.
Qed.

(** The header either operation writes holds no line feed before its last
    byte, when the version and the date it is rendered with hold none. *)
Lemma rendered_no_lf line v d fmt p a b header :
  parses_as line (v, d, fmt, p) →
  pyformat fmt (fields (PyStr a) (PyStr b)) = Ok header →
  contains LF (encode a) = false →
  contains LF (encode b) = false →
  contains LF (encode header) = false.
Proof.
  intros Hshape Hh Ha Hb.
  destruct (parses_as_template _ _ _ _ _ (PyStr a) (PyStr b) Hshape)
    as [[_ H]|[[_ H]|[[_ H]|[_ H]]]];
    rewrite H in Hh; injection Hh as <-; simpl str_of_pyval;
    rewrite ?encode_app, ?contains_app, ?Ha, ?Hb; reflexivity.
Qed.

Lemma leading_line_no_lf t path lines i line hdr :
  leading_entry t path lines i line hdr →
  lines_ok lines ∧ i < length lines ∧ contains LF (strip line) = false.
Proof.
  intros (content & _ & -> & Hi & Hl & _).
  pose proof (split_lines_ok content) as Hok.
  split; [done|]. split; [by apply skip_header_bound|].
  destruct (lines_ok_lookup _ _ _ Hok Hl) as (body & Hb & [->| ->]);
    by apply strip_line_no_lf.
Qed.

Lemma read_after_write path lines t :
  lines_ok lines →
  (get_file_lines path (after_write path lines t)).1 = Ok lines.
Proof.
  intros Hok. unfold get_file_lines, after_write. simpl.
  rewrite lookup_insert_eq. simpl. by rewrite split_lines_join.
Qed.

(** X22: after a successful [mark_released] the file reads back as the lines
    it had, with the line at the header's index replaced: as many lines as
    before, and no other line changed. *)
Lemma mark_released_read_back path ev rd t text t' :
  news_mark_released path ev rd t = (Ok text, t') →
  ∃ lines i header,
    (get_file_lines path t).1 = Ok lines
    ∧ skip_header lines = Ok i
    ∧ (get_file_lines path t').1 = Ok (<[i := header]> lines).
Proof.
  intros H. apply news_mark_released_inv in H as [(e & [=] & _)|H].
  destruct H as (lines & i & line & d & fmt & cl & header & Hl & _ & Hh & _ & ->).
  destruct (leading_line_no_lf _ _ _ _ _ _ Hl) as (Hok & Hi & Hs).
  pose proof Hl as (content & Hf & -> & Hsk & Hline & Hp%parse_version_line_inv).
  exists (split_lines content), i, (encode header ++ [LF]).
  split; [unfold get_file_lines; by rewrite Hf|]. split; [done|].
  apply read_after_write, lines_ok_set; [done..|].
  eapply rendered_no_lf; [exact Hp|exact Hh| |apply strftime_no_lf].
  by eapply parsed_version_no_lf.
Qed.

(** X23: after a successful [add_pending] of a version that holds no line
    feed, the file reads back as the lines it had with two lines put in at
    the header's index: the new header, then a line holding one line feed. *)
Lemma add_pending_read_back path new_version t r t' :
  contains LF (encode new_version) = false →
  news_add_pending path new_version t = (Ok r, t') →
  ∃ lines i header,
    (get_file_lines path t).1 = Ok lines
    ∧ skip_header lines = Ok i
    ∧ (get_file_lines path t').1
      = Ok (take i lines ++ header :: [LF] :: drop i lines).
Proof.
  intros Hnv H. apply news_add_pending_inv in H as [(e & [=] & _)|H].
  destruct H as (lines & i & line & v & d & fmt & header & Hl & Hh & _ & ->).
  destruct (leading_line_no_lf _ _ _ _ _ _ Hl) as (Hok & Hi & Hs).
  pose proof Hl as (content & Hf & -> & Hsk & Hline & Hp%parse_version_line_inv).
  exists (split_lines content), i, (encode header ++ [LF]).
  split; [unfold get_file_lines; by rewrite Hf|]. split; [done|].
  rewrite list_insert_at_twice by lia.
  apply read_after_write, lines_ok_add; [done..|].
  by eapply rendered_no_lf.
Qed.

(** * Further properties *)

(** ** The header skipper, both ways *)

Lemma skip_blank_inv rest (i n : nat) :
  skip_blank rest i = Ok n →
  i ≤ n
  ∧ (∀ j l, j < n - i → rest !! j = Some l → is_blank l = true)
  ∧ ∃ line, rest !! (n - i) = Some line ∧ is_blank line = false.
Proof.
  revert i. induction rest as [|l rest IH]; intros i; simpl; [done|].
  destruct (is_blank l) eqn:Hb.
  - intros (Hle & Hblank & line & Hl & Hn)%IH.
    split; [lia|]. split.
    + intros j l' Hj. destruct j as [|j]; [by intros [= <-]|].
      simpl. apply Hblank. lia.
    + exists line. replace (n - i) with (S (n - S i)) by lia. done.
  - intros [= <-]. split; [lia|]. rewrite Nat.sub_diag. split.
    + intros j l' Hj. lia.
    + by exists l.
Qed.

Lemma skip_blank_raise rest (i : nat) e :
  skip_blank rest i = Raise e ↔
  e = IndexError ∧ Forall (λ l, is_blank l = true) rest.
Proof.
  revert i. induction rest as [|l rest IH]; intros i; simpl.
  - split; [by intros [= <-] | by intros [-> _]].
  - destruct (is_blank l) eqn:Hb.
    + rewrite IH. split; intros [-> H]; split; try done.
      * by constructor.
      * by inversion H.
    + split; [done|]. intros [_ H]. inversion H; congruence.
Qed.

Lemma skip_header_iff lines (i : nat) :
  skip_header lines = Ok i ↔ header_at lines i.
Proof.
  unfold skip_header, header_at, titled, after_title. split.
  - intros (l0 & H0%getitem_ok & H)%bind_ok.
    destruct (startswith (B "Changelog for ") l0) eqn:Ht;
      [|injection H as <-; left; eauto].
    apply bind_ok in H as (l1 & H1%getitem_ok & H). change (0 + 1) with 1 in *.
    right. exists l1.
    set (k := if startswith (B "======") l1 then 1 + 1 else 1) in H.
    assert (k = if startswith (B "======") l1 then 2 else 1) as <-
      by (subst k; by destruct (startswith (B "======") l1)).
    apply skip_blank_inv in H as (Hle & Hblank & line & Hl & Hn).
    rewrite lookup_drop in Hl. replace (k + (i - k)) with i in Hl by lia.
    exists line. repeat split; eauto.
    intros j l Hj Hjl. apply (Hblank (j - k)); [lia|].
    rewrite lookup_drop. by replace (k + (j - k)) with j by lia.
  - intros [(l0 & H0 & Ht & ->)|(l1 & line & (l0 & H0 & Ht) & H1 & Hk & Hblank & Hl & Hn)].
    + apply getitem_ok in H0. rewrite H0. cbn [mbind result_bind]. by rewrite Ht.
    + apply getitem_ok in H0, H1. rewrite H0. cbn [mbind result_bind].
      rewrite Ht. change (0 + 1) with 1. rewrite H1. cbn [mbind result_bind].
      set (k := if startswith (B "======") l1 then 1 + 1 else 1).
      assert (k = if startswith (B "======") l1 then 2 else 1) as Hk'
        by (subst k; by destruct (startswith (B "======") l1)).
      rewrite <- Hk' in *.
      replace i with (k + (i - k)) by lia.
      apply skip_blank_first_text.
      * intros j Hj. destruct (lookup_lt_is_Some_2 lines (k + j)) as [l Hjl].
        { apply lookup_lt_Some in Hl. lia. }
        exists l. rewrite lookup_drop. split; [done|].
        apply (Hblank (k + j)); [lia|done].
      * exists line. rewrite lookup_drop. split; [|done].
        by replace (k + (i - k)) with i by lia.
Qed.

(** X1: the index [skip_header] returns is a valid index of the list.  When
    it is not 0 the list has a title, the line at the index is not blank,
    and every line from index 2 up to it is blank. *)
Theorem skip_header_names_a_line (lines : list bytes) (i : nat) :
  skip_header lines = Ok i →
  ∃ line,
    lines !! i = Some line
    ∧ (0 < i →
       titled lines
       ∧ is_blank line = false
       ∧ ∀ j l, 2 ≤ j < i → lines !! j = Some l → is_blank l = true).
Proof.
  intros [(l0 & H0 & Ht & ->)|(l1 & line & Htitle & H1 & Hk & Hblank & Hl & Hn)]%skip_header_iff.
  - exists l0. split; [done|]. lia.
  - exists line. split; [done|]. intros _. repeat split; try done.
    intros j l Hj. apply Hblank. unfold after_title in *.
    destruct (startswith (B "======") l1); lia.
Qed.

Lemma skip_header_names_a_line_witness :
  let lines := [B "Changelog for disperse" ++ [LF];
                B "======================" ++ [LF];
                [LF]; [SPACE; LF];
                B "1.2.3" ++ [TAB] ++ B "UNRELEASED" ++ [LF]] in
  skip_header lines = Ok 4
  ∧ ∃ line,
      lines !! 4 = Some line
      ∧ (0 < 4 →
         titled lines
         ∧ is_blank line = false
         ∧ ∀ j l, 2 ≤ j < 4 → lines !! j = Some l → is_blank l = true).
Proof.
  cbv zeta. split; [reflexivity|].
  apply (skip_header_names_a_line
           [B "Changelog for disperse" ++ [LF];
            B "======================" ++ [LF];
            [LF]; [SPACE; LF];
            B "1.2.3" ++ [TAB] ++ B "UNRELEASED" ++ [LF]] 4).
  reflexivity.
Defined.

(** X2: [skip_header] raises nothing but [IndexError], and raises it exactly
    when the list is empty, or has a title followed by nothing but blank
    lines, a line 1 that begins with six ['='] apart. *)
Theorem skip_header_raises_index_error (lines : list bytes) (e : exn) :
  skip_header lines = Raise e ↔
  e = IndexError
  ∧ (lines = []
     ∨ (titled lines
        ∧ ∀ j l, 1 ≤ j → lines !! j = Some l →
                 is_blank l = true
                 ∨ (j = 1 ∧ startswith (B "======") l = true))).
Proof.
  unfold skip_header, titled. split.
  - destruct lines as [|l0 rest]; [intros [= <-]; auto|].
    change (getitem (l0 :: rest) 0) with (Ok (A:=bytes) l0).
    cbn [mbind result_bind].
    destruct (startswith (B "Changelog for ") l0) eqn:Ht; [|done].
    change (0 + 1) with 1.
    destruct rest as [|l1 rest].
    { intros [= <-]. split; [done|]. right. split; [by exists l0|].
      intros [|j] l Hj; [lia | done]. }
    change (getitem (l0 :: l1 :: rest) 1) with (Ok (A:=bytes) l1).
    cbn [mbind result_bind].
    destruct (startswith (B "======") l1) eqn:Hu.
    + intros [-> Hall]%skip_blank_raise. split; [done|]. right.
      split; [by exists l0|]. intros j l Hj Hl.
      destruct j as [|[|j]]; [lia|injection Hl as <-; auto|].
      left. rewrite Forall_lookup in Hall. by apply (Hall j).
    + intros [-> Hall]%skip_blank_raise. split; [done|]. right.
      split; [by exists l0|]. intros j l Hj Hl.
      destruct j as [|j]; [lia|].
      left. rewrite Forall_lookup in Hall. by apply (Hall j).
  - intros [-> [->|[(l0 & H0 & Ht) Hall]]]; [done|].
    destruct lines as [|l0' rest]; [done|]. injection H0 as ->.
    change (getitem (l0 :: rest) 0) with (Ok (A:=bytes) l0).
    cbn [mbind result_bind]. rewrite Ht. change (0 + 1) with 1.
    destruct rest as [|l1 rest]; [done|].
    change (getitem (l0 :: l1 :: rest) 1) with (Ok (A:=bytes) l1).
    cbn [mbind result_bind].
    destruct (startswith (B "======") l1) eqn:Hu.
    + apply skip_blank_raise. split; [done|]. apply Forall_lookup.
      intros j l Hl. destruct (Hall (S (S j)) l) as [?|[? _]]; [lia|done|done|lia].
    + apply skip_blank_raise. split; [done|]. apply Forall_lookup.
      intros j l Hl. destruct (Hall (S j) l) as [?|[Hj Hs]]; [lia|done|done|].
      injection Hj as ->. injection Hl as ->. congruence.
Qed.

(** ** What the grammar accepts and how it fails *)

Lemma check_version_ok v pv :
  check_version v = Ok pv →
  (pv = true ∧ (v = "UNRELEASED" ∨ v = "%(version)s"))
  ∨ (pv = false ∧ v ≠ "UNRELEASED" ∧ v ≠ "%(version)s"
     ∧ fullmatch_digits_dots v = true).
Proof.
  unfold check_version.
  destruct (String.eqb v "UNRELEASED") eqn:E1.
  { apply String.eqb_eq in E1. intros [= <-]. auto. }
  destruct (String.eqb v "%(version)s") eqn:E2.
  { apply String.eqb_eq in E2. intros [= <-]. auto. }
  apply String.eqb_neq in E1, E2. simpl.
  destruct (fullmatch_digits_dots v); [|done]. intros [= <-]. auto.
Qed.

Lemma check_version_raise v e :
  check_version v = Raise e →
  e = OddVersion v ∧ v ≠ "UNRELEASED" ∧ v ≠ "%(version)s"
  ∧ fullmatch_digits_dots v = false.
Proof.
  unfold check_version.
  destruct (String.eqb v "UNRELEASED") eqn:E1; [done|].
  destruct (String.eqb v "%(version)s") eqn:E2; [done|].
  apply String.eqb_neq in E1, E2. simpl.
  destruct (fullmatch_digits_dots v); [done|]. by intros [= <-].
Qed.

Lemma decode_raise s e : decode s = Raise e → e = UnicodeDecodeError.
Proof. unfold decode. destruct (utf8_valid s); [done|]. by intros [= <-]. Qed.

(** The version of an accepted line is its version token, and the check of
    the version decides the classification alone when it says pending or
    when there is no date. *)
Lemma parse_version_line_version line v d fmt p :
  parse_version_line line = Ok (v, d, fmt, p) →
  decode (version_token line) = Ok v
  ∧ ∃ pv, check_version v = Ok pv
          ∧ (pv = true → p = true)
          ∧ (d = None → p = pv).
Proof.
  unfold parse_version_line, version_token.
  destruct (contains TAB (strip line)) eqn:Ht.
  { destruct (split1_contains _ _ Ht) as (vb & db & -> & ->).
    intros (p' & Hp & (v' & Hv & (d' & Hd & [= <- <- <- <-])%bind_ok)%bind_ok)%bind_ok.
    apply lazy_or_ok in Hp as (pv & Hpv & Hp). simpl.
    rewrite Hv in Hpv. split; [done|]. exists pv. split; [done|].
    split; [by intros ->|done]. }
  destruct (contains SPACE (strip line)) eqn:Hs.
  { destruct (split1_contains _ _ Hs) as (vb & db & -> & ->).
    intros (p' & Hp & H)%bind_ok.
    apply lazy_or_ok in Hp as (pv & Hpv & Hp). simpl.
    destruct (startswith [LPAREN] db && endswith [RPAREN] db);
      apply bind_ok in H as (v' & Hv & (d' & Hd & [= <- <- <- <-])%bind_ok);
      rewrite Hv in Hpv; (split; [done|]); exists pv; (split; [done|]);
      (split; [by intros ->|done]). }
  intros (p' & (v' & Hv & Hp)%bind_ok & (v'' & Hv' & [= <- <- <- <-])%bind_ok)%bind_ok.
  rewrite Hv in Hv'. injection Hv' as <-. split; [done|]. by exists p'.
Qed.

Lemma parse_version_line_raise_inv (line : bytes) (e : exn) :
  parse_version_line line = Raise e →
  e = UnicodeDecodeError
  ∨ ∃ v, e = OddVersion v
         ∧ decode (version_token line) = Ok v
         ∧ v ≠ "UNRELEASED" ∧ v ≠ "%(version)s"
         ∧ fullmatch_digits_dots v = false.
Proof.
  unfold parse_version_line, version_token, lazy_or.
  destruct (contains TAB (strip line)) eqn:Ht.
  { destruct (split1_contains _ _ Ht) as (vb & db & -> & ->). cbn [fst].
    destruct (decode vb) as [v|ev] eqn:Hv; cbn [mbind result_bind];
      [|apply decode_raise in Hv as ->; intros [= <-]; auto].
    destruct (check_version v) as [pv|ec] eqn:Hc; cbn [mbind result_bind];
      [|apply check_version_raise in Hc as (-> & ? & ? & ?);
        intros [= <-]; right; exists v; auto].
    destruct (decode db) as [d|ed] eqn:Hd;
      [|apply decode_raise in Hd as ->];
      destruct pv; cbn [mbind result_bind]; try done; intros [= <-]; auto. }
  destruct (contains SPACE (strip line)) eqn:Hs.
  { destruct (split1_contains _ _ Hs) as (vb & db & -> & ->). cbn [fst].
    destruct (decode vb) as [v|ev] eqn:Hv; cbn [mbind result_bind];
      [|apply decode_raise in Hv as ->; intros [= <-]; auto].
    destruct (check_version v) as [pv|ec] eqn:Hc; cbn [mbind result_bind];
      [|apply check_version_raise in Hc as (-> & ? & ? & ?);
        intros [= <-]; right; exists v; auto].
    destruct (decode (slice_1_m1 db)) as [d1|e1] eqn:Hd1;
      [|apply decode_raise in Hd1 as ->];
      (destruct (decode db) as [d2|e2] eqn:Hd2;
       [|apply decode_raise in Hd2 as ->]);
      destruct pv; cbn [mbind result_bind];
      destruct (startswith [LPAREN] db && endswith [RPAREN] db);
      cbn [mbind result_bind]; try done; intros [= <-]; auto. }
  destruct (decode (strip line)) as [v|ev] eqn:Hv; cbn [mbind result_bind];
    [|apply decode_raise in Hv as ->; intros [= <-]; auto].
  destruct (check_version v) as [pv|ec] eqn:Hc; cbn [mbind result_bind];
    [done|].
  apply check_version_raise in Hc as (-> & ? & ? & ?).
  intros [= <-]. right. exists v. auto.
Qed.

(** X3: [parse_version_line] raises nothing but [UnicodeDecodeError] and
    [OddVersion]; when it raises [OddVersion] the text carried is the decoded
    version token, which is neither placeholder nor digits and dots. *)
Theorem parse_version_line_raises (line : bytes) (e : exn) :
  parse_version_line line = Raise e →
  e = UnicodeDecodeError
  ∨ ∃ v, e = OddVersion v
         ∧ decode (version_token line) = Ok v
         ∧ v ≠ "UNRELEASED" ∧ v ≠ "%(version)s"
         ∧ fullmatch_digits_dots v = false.
Proof. apply parse_version_line_raise_inv. Qed.

Lemma parse_version_line_raises_witness :
  parse_version_line (B "v1.2" ++ [TAB] ++ B "2024-05-01" ++ [LF])
  = Raise (OddVersion "v1.2")
  ∧ (OddVersion "v1.2" = UnicodeDecodeError
     ∨ ∃ v, OddVersion "v1.2" = OddVersion v
            ∧ decode (version_token (B "v1.2" ++ [TAB] ++ B "2024-05-01" ++ [LF]))
              = Ok v
            ∧ v ≠ "UNRELEASED" ∧ v ≠ "%(version)s"
            ∧ fullmatch_digits_dots v = false).
Proof.
  split; [reflexivity|].
  apply (parse_version_line_raises
           (B "v1.2" ++ [TAB] ++ B "2024-05-01" ++ [LF]) (OddVersion "v1.2")).
  reflexivity.
Defined.

(** X4: the version of an accepted line is the decoded version token; it is
    never empty, and it is [UNRELEASED], [%(version)s], or made of digits and
    dots only. *)
Theorem accepted_version_form (line : bytes)
    (v : str) (d : option str) (fmt : str) (p : bool) :
  parse_version_line line = Ok (v, d, fmt, p) →
  decode (version_token line) = Ok v
  ∧ v ≠ ""
  ∧ (v = "UNRELEASED" ∨ v = "%(version)s" ∨ fullmatch_digits_dots v = true).
Proof.
  intros (Hv & pv & Hc & _)%parse_version_line_version.
  split; [done|].
  apply check_version_ok in Hc as [(_ & [->| ->])|(_ & _ & _ & Hm)]; auto.
  split; [|auto]. by intros ->.
Qed.

Lemma accepted_version_form_witness :
  parse_version_line (B "1.2.3 (2024-05-01)" ++ [LF])
  = Ok ("1.2.3", Some "2024-05-01", fmt_paren, false)
  ∧ decode (version_token (B "1.2.3 (2024-05-01)" ++ [LF])) = Ok "1.2.3"
  ∧ "1.2.3" ≠ ""
  ∧ ("1.2.3" = "UNRELEASED" ∨ "1.2.3" = "%(version)s"
     ∨ fullmatch_digits_dots "1.2.3" = true).
Proof.
  split; [reflexivity|].
  apply (accepted_version_form (B "1.2.3 (2024-05-01)" ++ [LF])
           "1.2.3" (Some "2024-05-01") fmt_paren false).
  reflexivity.
Defined.

(** X5: an accepted line whose version is [UNRELEASED] or [%(version)s] is
    pending whatever its date; a line with no date is pending only then. *)
Theorem placeholder_version_is_pending (line : bytes)
    (v : str) (d : option str) (fmt : str) (p : bool) :
  parse_version_line line = Ok (v, d, fmt, p) →
  (v = "UNRELEASED" ∨ v = "%(version)s" → p = true)
  ∧ (d = None → p = true → v = "UNRELEASED" ∨ v = "%(version)s").
Proof.
  intros (_ & pv & Hc & Hpv & Hnone)%parse_version_line_version.
  apply check_version_ok in Hc as [(-> & Hs)|(-> & H1 & H2 & _)].
  - split; [auto|]. by intros _ _.
  - split; [by intros [?|?]|]. intros ->%Hnone. done.
Qed.

Lemma placeholder_version_is_pending_witness :
  parse_version_line (B "UNRELEASED" ++ [TAB] ++ B "2024-05-01" ++ [LF])
  = Ok ("UNRELEASED", Some "2024-05-01", fmt_tab, true)
  ∧ ("UNRELEASED" = "UNRELEASED" ∨ "UNRELEASED" = "%(version)s" → true = true)
  ∧ (Some "2024-05-01" = None → true = true →
     "UNRELEASED" = "UNRELEASED" ∨ "UNRELEASED" = "%(version)s").
Proof.
  split; [reflexivity|].
  apply (placeholder_version_is_pending
           (B "UNRELEASED" ++ [TAB] ++ B "2024-05-01" ++ [LF])
           "UNRELEASED" (Some "2024-05-01") fmt_tab true).
  reflexivity.
Defined.

(** X6: a line that is empty or white space only is refused, with
    [OddVersion] carrying the empty text. *)
Theorem blank_line_is_odd (line : bytes) :
  is_blank line = true → parse_version_line line = Raise (OddVersion "").
Proof.
  unfold is_blank, parse_version_line.
  destruct (strip line) as [|c s]; [|done]. intros _. reflexivity.
Qed.

Lemma blank_line_is_odd_witness :
  is_blank [SPACE; TAB; x0d; LF] = true
  ∧ parse_version_line [SPACE; TAB; x0d; LF] = Raise (OddVersion "").
Proof.
  split; [reflexivity|].
  apply (blank_line_is_odd [SPACE; TAB; x0d; LF]). reflexivity.
Defined.

(** ** White space around a line *)

Lemma lstrip_head s :
  lstrip s = [] ∨ ∃ c m, lstrip s = c :: m ∧ is_space c = false.
Proof.
  induction s as [|c s IH]; simpl; [auto|].
  destruct (is_space c) eqn:E; [done|]. right. eauto.
Qed.

Lemma lstrip_fixed c m : is_space c = false → lstrip (c :: m) = c :: m.
Proof. intros E. simpl. by rewrite E. Qed.

Lemma lstrip_idem s : lstrip (lstrip s) = lstrip s.
Proof.
  destruct (lstrip_head s) as [->|(c & m & -> & E)]; [done|].
  by apply lstrip_fixed.
Qed.

Lemma lstrip_snoc_text s c :
  is_space c = false → lstrip (s ++ [c]) = lstrip s ++ [c].
Proof.
  intros E. induction s as [|x s IH]; simpl.
  - by rewrite E.
  - by destruct (is_space x).
Qed.

Lemma rstrip_cons_text c m : is_space c = false → rstrip (c :: m) = c :: rstrip m.
Proof.
  intros E. unfold rstrip. simpl. rewrite lstrip_snoc_text by done.
  by rewrite rev_unit.
Qed.

Lemma rstrip_idem s : rstrip (rstrip s) = rstrip s.
Proof. unfold rstrip. by rewrite rev_involutive, lstrip_idem. Qed.

Lemma strip_idem s : strip (strip s) = strip s.
Proof.
  unfold strip.
  destruct (lstrip_head s) as [->|(c & m & -> & E)]; [done|].
  rewrite rstrip_cons_text by done. rewrite lstrip_fixed by done.
  rewrite <- rstrip_cons_text by done. apply rstrip_idem.
Qed.

(** X7: white space around a header line, its line terminator included, has
    no part in how it parses: the line and the line stripped parse alike. *)
Theorem parse_ignores_surrounding_space (line : bytes) :
  parse_version_line (strip line) = parse_version_line line.
Proof. unfold parse_version_line. by rewrite strip_idem. Qed.

(** ** Parsing what was rendered *)

Lemma visible_text c : is_visible c = true → is_space c = false.
Proof. destruct c; try reflexivity; discriminate. Qed.

Lemma visible_ascii c : is_visible c = true → in_range 0 127 c = true.
Proof. destruct c; try reflexivity; discriminate. Qed.

Lemma visible_utf8 s : forallb is_visible s = true → utf8_valid s = true.
Proof.
  induction s as [|c s IH]; [done|].
  intros [Hc Hs]%andb_true_iff. simpl. by rewrite (visible_ascii _ Hc), IH.
Qed.

Lemma visible_contains sep s :
  is_visible sep = false → forallb is_visible s = true → contains sep s = false.
Proof.
  intros Hsep. induction s as [|c s IH]; [done|].
  intros [Hc Hs]%andb_true_iff. simpl. rewrite (IH Hs), orb_false_r.
  destruct (Byte.eqb sep c) eqn:E; [|done].
  apply byte_eqb_eq in E as <-. congruence.
Qed.

Lemma token_decode s : is_token s = true → decode (encode s) = Ok s.
Proof.
  unfold is_token, decode. intros ->%visible_utf8.
  unfold encode. by rewrite string_of_list_byte_of_string.
Qed.

Lemma version_char_visible c :
  is_version_char c = true → is_visible (byte_of_ascii c) = true.
Proof.
  destruct c as [[] [] [] [] [] [] [] []]; try reflexivity; discriminate.
Qed.

Lemma digits_dots_token v :
  fullmatch_digits_dots v = true → is_token v = true ∧ encode v ≠ [].
Proof.
  unfold fullmatch_digits_dots, is_token, encode, list_byte_of_string.
  destruct (list_ascii_of_string v) as [|c cs]; [done|].
  intros H. split; [|done]. revert H. generalize (c :: cs). clear.
  induction l as [|c cs IH]; [done|]. simpl.
  intros [Hc Hcs]%andb_true_iff. by rewrite (version_char_visible _ Hc), IH.
Qed.

Lemma digits_dots_check v :
  fullmatch_digits_dots v = true → check_version v = Ok false.
Proof.
  intros Hm. unfold check_version.
  destruct (String.eqb v "UNRELEASED") eqn:E1.
  { apply String.eqb_eq in E1 as ->. discriminate Hm. }
  destruct (String.eqb v "%(version)s") eqn:E2.
  { apply String.eqb_eq in E2 as ->. discriminate Hm. }
  by rewrite Hm.
Qed.

Lemma rstrip_fixed m z : is_space z = false → rstrip (m ++ [z]) = m ++ [z].
Proof.
  intros E. unfold rstrip. rewrite rev_unit, lstrip_fixed by done.
  by rewrite <- rev_unit, rev_involutive.
Qed.

(** A line whose first and last bytes are text is what stripping it and its
    terminator leaves. *)
Lemma strip_text c m z :
  is_space c = false → is_space z = false →
  strip ((c :: m ++ [z]) ++ [LF]) = c :: m ++ [z].
Proof.
  intros Hc Hz. unfold strip.
  change ((c :: m ++ [z]) ++ [LF]) with (c :: (m ++ [z]) ++ [LF]).
  rewrite lstrip_fixed by done.
  change (c :: (m ++ [z]) ++ [LF]) with ((c :: m ++ [z]) ++ [LF]).
  rewrite rstrip_snoc_space by done. by apply (rstrip_fixed (c :: m)).
Qed.

Lemma strip_token a : forallb is_visible a = true → strip (a ++ [LF]) = a.
Proof.
  intros Ha. destruct a as [|c a]; [done|].
  cbn [forallb] in Ha.
  apply andb_true_iff in Ha as [Hc%visible_text Ha].
  revert Ha. destruct a as [|y a _] using rev_ind; intros Ha.
  - unfold strip. simpl. rewrite Hc. unfold rstrip. simpl. by rewrite Hc.
  - rewrite forallb_app in Ha.
    apply andb_true_iff in Ha as [_ [Hy%visible_text _]%andb_true_iff].
    by apply strip_text.
Qed.

Lemma strip_framed a mid b :
  forallb is_visible a = true → a ≠ [] →
  forallb is_visible b = true → b ≠ [] →
  strip ((a ++ mid ++ b) ++ [LF]) = a ++ mid ++ b.
Proof.
  intros Ha Hna Hb Hnb.
  destruct a as [|c a]; [done|].
  cbn [forallb] in Ha.
  apply andb_true_iff in Ha as [Hc%visible_text _].
  revert Hb Hnb. destruct b as [|y b _] using rev_ind; intros Hb Hnb; [done|].
  rewrite forallb_app in Hb.
  apply andb_true_iff in Hb as [_ [Hy%visible_text _]%andb_true_iff].
  replace ((c :: a) ++ mid ++ b ++ [y]) with (c :: (a ++ mid ++ b) ++ [y])
    by (simpl; by rewrite <- !app_assoc).
  by apply strip_text.
Qed.

Lemma cut_at sep a b :
  contains sep a = false → cut sep (a ++ sep :: b) = (a, Some b).
Proof.
  induction a as [|c a IH]; simpl.
  - by rewrite byte_eqb_refl.
  - intros [Hc Ha]%orb_false_iff.
    destruct (Byte.eqb c sep) eqn:E.
    { apply byte_eqb_eq in E as ->. by rewrite byte_eqb_refl in Hc. }
    by rewrite IH.
Qed.

Lemma contains_at sep a b : contains sep (a ++ sep :: b) = true.
Proof.
  rewrite contains_app. simpl. by rewrite byte_eqb_refl, orb_true_r.
Qed.

Lemma split1_at sep a b :
  contains sep a = false → split1 sep (a ++ sep :: b) = [a; b].
Proof. intros H. unfold split1. by rewrite cut_at. Qed.

Lemma encode_nonempty (s : str) : s ≠ "" → encode s ≠ [].
Proof. by destruct s. Qed.

Lemma parse_tab_line v d :
  fullmatch_digits_dots v = true → is_token d = true → d ≠ "" →
  parse_version_line ((encode v ++ [TAB] ++ encode d) ++ [LF])
  = Ok (v, Some d, fmt_tab, check_date d).
Proof.
  intros Hv Hd Hne. destruct (digits_dots_token _ Hv) as [Hvt Hvne].
  unfold parse_version_line.
  rewrite strip_framed by (done || by apply encode_nonempty).
  change (encode v ++ [TAB] ++ encode d) with (encode v ++ TAB :: encode d).
  rewrite contains_at, split1_at by (by apply visible_contains).
  unfold lazy_or. rewrite !token_decode by done. cbn [mbind result_bind].
  rewrite digits_dots_check by done. reflexivity.
Qed.

Lemma parse_paren_line v d :
  fullmatch_digits_dots v = true → is_token d = true →
  parse_version_line ((encode v ++ [SPACE; LPAREN] ++ encode d ++ [RPAREN]) ++ [LF])
  = Ok (v, Some d, fmt_paren, check_date d).
Proof.
  intros Hv Hd. destruct (digits_dots_token _ Hv) as [Hvt Hvne].
  unfold parse_version_line.
  replace (encode v ++ [SPACE; LPAREN] ++ encode d ++ [RPAREN])
    with (encode v ++ ([SPACE; LPAREN] ++ encode d) ++ [RPAREN])
    by (by rewrite <- !app_assoc).
  rewrite strip_framed by done.
  assert (contains TAB (encode v ++ ([SPACE; LPAREN] ++ encode d) ++ [RPAREN]) = false)
    as ->.
  { rewrite !contains_app, (visible_contains TAB (encode v)),
      (visible_contains TAB (encode d)) by done. reflexivity. }
  change (encode v ++ ([SPACE; LPAREN] ++ encode d) ++ [RPAREN])
    with (encode v ++ SPACE :: LPAREN :: encode d ++ [RPAREN]).
  rewrite contains_at, split1_at by (by apply visible_contains).
  assert (slice_1_m1 (LPAREN :: encode d ++ [RPAREN]) = encode d) as Hslice
    by (unfold slice_1_m1; simpl; apply removelast_last).
  assert (startswith [LPAREN] (LPAREN :: encode d ++ [RPAREN])
          && endswith [RPAREN] (LPAREN :: encode d ++ [RPAREN]) = true) as ->.
  { unfold endswith.
    change (LPAREN :: encode d ++ [RPAREN]) with ((LPAREN :: encode d) ++ [RPAREN]).
    by rewrite rev_unit. }
  unfold lazy_or. rewrite Hslice, !token_decode by done.
  cbn [mbind result_bind]. rewrite digits_dots_check by done. reflexivity.
Qed.

Lemma visible_slice s :
  forallb is_visible s = true → forallb is_visible (slice_1_m1 s) = true.
Proof.
  unfold slice_1_m1. destruct s as [|c s]; [done|]. simpl tl.
  intros H. cbn [forallb] in H. apply andb_true_iff in H as [_ Hs]. revert Hs.
  destruct s as [|z s _] using rev_ind; [done|].
  rewrite removelast_last, forallb_app. by intros [? _]%andb_true_iff.
Qed.

Lemma parse_space_line v d :
  fullmatch_digits_dots v = true → is_token d = true → d ≠ "" →
  startswith [LPAREN] (encode d) && endswith [RPAREN] (encode d) = false →
  parse_version_line ((encode v ++ [SPACE] ++ encode d) ++ [LF])
  = Ok (v, Some d, fmt_space,
        check_date (string_of_list_byte (slice_1_m1 (encode d)))).
Proof.
  intros Hv Hd Hne Hparen. destruct (digits_dots_token _ Hv) as [Hvt Hvne].
  unfold parse_version_line.
  rewrite strip_framed by (done || by apply encode_nonempty).
  assert (contains TAB (encode v ++ [SPACE] ++ encode d) = false) as ->.
  { rewrite !contains_app, (visible_contains TAB (encode v)),
      (visible_contains TAB (encode d)) by done. reflexivity. }
  change (encode v ++ [SPACE] ++ encode d) with (encode v ++ SPACE :: encode d).
  rewrite contains_at, split1_at by (by apply visible_contains).
  rewrite Hparen. unfold lazy_or. rewrite !token_decode by done.
  cbn [mbind result_bind]. rewrite digits_dots_check by done.
  unfold decode at 1. rewrite visible_utf8 by (by apply visible_slice).
  reflexivity.
Qed.

Lemma parse_bare_line v :
  fullmatch_digits_dots v = true →
  parse_version_line (encode v ++ [LF]) = Ok (v, None, fmt_bare, false).
Proof.
  intros Hv. destruct (digits_dots_token _ Hv) as [Hvt Hvne].
  unfold parse_version_line. rewrite strip_token by done.
  rewrite (visible_contains TAB), (visible_contains SPACE) by done.
  rewrite !token_decode by done. cbn [mbind result_bind].
  rewrite digits_dots_check by done. reflexivity.
Qed.



(** ** The header after a rewrite *)

(** The header stays where it is when the lines before it are kept and the
    line put at its index is text that is neither a title nor an underline. *)
Lemma header_at_change lines lines' (i : nat) h :
  header_at lines i →
  (∀ j : nat, j < i → lines' !! j = lines !! j) →
  lines' !! i = Some h →
  is_blank h = false →
  startswith (B "Changelog for ") h = false →
  startswith (B "======") h = false →
  header_at lines' i.
Proof.
  intros [(l0 & H0 & Ht & ->)|(l1 & line & (l0 & H0 & Ht) & H1 & Hk & Hblank & Hl & Hn)]
    Hbefore Hi Hb Hnt Hnu.
  - left. by exists h.
  - assert (1 ≤ i) as Hi1
      by (unfold after_title in Hk; destruct (startswith (B "======") l1); lia).
    right. destruct (decide (i = 1)) as [->|Hne].
    + exists h, h. unfold after_title. rewrite Hnu.
      split; [exists l0; by rewrite Hbefore by lia|].
      repeat split; try done. intros j l Hj. lia.
    + exists l1, h.
      split; [exists l0; by rewrite Hbefore by lia|].
      split; [by rewrite Hbefore by lia|]. split; [done|].
      split; [|done]. intros j l Hj Hjl. apply (Hblank j); [done|].
      by rewrite <- Hbefore by lia.
Qed.

Lemma parse_ok_not_blank line hdr :
  parse_version_line line = Ok hdr → is_blank line = false.
Proof.
  unfold is_blank, parse_version_line.
  by destruct (strip line) as [|c s].
Qed.

Lemma version_char_not_heading c :
  is_version_char c = true →
  Byte.eqb "C" (byte_of_ascii c) = false ∧ Byte.eqb "=" (byte_of_ascii c) = false.
Proof.
  destruct c as [[] [] [] [] [] [] [] []]; try discriminate; by intros _.
Qed.

(** A line that begins with a version of digits and dots is neither a title
    nor an underline. *)
Lemma digits_line_not_heading v rest :
  fullmatch_digits_dots v = true →
  startswith (B "Changelog for ") (encode v ++ rest) = false
  ∧ startswith (B "======") (encode v ++ rest) = false.
Proof.
  unfold fullmatch_digits_dots, encode, list_byte_of_string.
  destruct (list_ascii_of_string v) as [|c cs]; [done|].
  cbn [forallb]. intros [[H1 H2]%version_char_not_heading _]%andb_true_iff.
  split.
  - change (startswith (B "Changelog for ") (map byte_of_ascii (c :: cs) ++ rest))
      with (Byte.eqb "C" (byte_of_ascii c)
            && startswith (B "hangelog for ") (map byte_of_ascii cs ++ rest)).
    by rewrite H1.
  - change (startswith (B "======") (map byte_of_ascii (c :: cs) ++ rest))
      with (Byte.eqb "=" (byte_of_ascii c)
            && startswith (B "=====") (map byte_of_ascii cs ++ rest)).
    by rewrite H2.
Qed.

(** What a template renders begins with the version. *)
Lemma rendered_begins_with_version line v d fmt p a b header :
  parses_as line (v, d, fmt, p) →
  pyformat fmt (fields (PyStr a) (PyStr b)) = Ok header →
  ∃ rest, encode header = encode a ++ rest.
Proof.
  intros Hshape Hh.
  destruct (parses_as_template _ _ _ _ _ (PyStr a) (PyStr b) Hshape)
    as [[_ H]|[[_ H]|[[_ H]|[_ H]]]];
    rewrite H in Hh; injection Hh as <-; simpl str_of_pyval;
    rewrite ?encode_app; eauto.
  exists []. by rewrite app_nil_r.
Qed.

Lemma news_find_pending_run path t lines i line v d fmt p :
  leading_entry t path lines i line (v, d, fmt, p) →
  news_find_pending path t
  = (if p then Ok v else Raise NoUnreleasedChanges, after_read path t).
Proof.
  intros (content & Hf & -> & Hi & Hl & Hp).
  unfold news_find_pending, get_file_lines, mbind, tree_bind, lift, raise.
  rewrite Hf, Hi. apply getitem_ok in Hl as Hg. rewrite Hg, Hp.
  by destruct p.
Qed.

Lemma news_mark_released_not_pending path ev rd t lines i line v d fmt :
  leading_entry t path lines i line (v, d, fmt, false) →
  news_mark_released path ev rd t
  = (Raise NoUnreleasedChanges, after_read path t).
Proof.
  intros (content & Hf & -> & Hi & Hl & Hp).
  unfold news_mark_released, get_file_lines, mbind, tree_bind, lift, raise.
  rewrite Hf, Hi. apply getitem_ok in Hl as Hg. by rewrite Hg, Hp.
Qed.

(** The leading entry of the tree a write leaves, when the lines written
    are well formed and the header among them is where it was. *)
Lemma leading_entry_after_write path t lines (i : nat) h hdr :
  lines_ok lines →
  header_at lines i →
  lines !! i = Some h →
  parse_version_line h = Ok hdr →
  leading_entry (after_write path lines t) path lines i h hdr.
Proof.
  intros Hok Hat Hl Hp. exists (join_bytes lines).
  split; [apply lookup_insert_eq|].
  split; [by rewrite split_lines_join|].
  split; [by apply skip_header_iff|]. done.
Qed.

(** ** The date stamped on a header *)

Lemma strftime_Ymd_chars d :
  strftime_Ymd d
  = String (digit (year d / 1000)) (String (digit (year d / 100))
      (String (digit (year d / 10)) (String (digit (year d))
        (String "-" (String (digit (month d / 10)) (String (digit (month d))
          (String "-" (String (digit (day d / 10)) (String (digit (day d))
            ""))))))))).
Proof. reflexivity. Qed.

Lemma digit_cases n (P : ascii → Prop) :
  P "0"%char → P "1"%char → P "2"%char → P "3"%char → P "4"%char →
  P "5"%char → P "6"%char → P "7"%char → P "8"%char → P "9"%char →
  P (digit n).
Proof.
  intros. unfold digit. pose proof (Nat.mod_upper_bound n 10) as Hlt.
  destruct (n mod 10) as [|[|[|[|[|[|[|[|[|[|k]]]]]]]]]]; try done. lia.
Qed.

Lemma digit_visible n : is_visible (byte_of_ascii (digit n)) = true.
Proof. by apply digit_cases. Qed.

Lemma digit_not_U n : Ascii.eqb (digit n) "U" = false.
Proof. by apply digit_cases. Qed.

Lemma digit_not_lparen n : Byte.eqb LPAREN (byte_of_ascii (digit n)) = false.
Proof. by apply digit_cases. Qed.

Lemma strftime_token d : is_token (strftime_Ymd d) = true.
Proof.
  rewrite strftime_Ymd_chars. unfold is_token, encode, list_byte_of_string.
  cbn [list_ascii_of_string map forallb]. rewrite !digit_visible. reflexivity.
Qed.

Lemma strftime_nonempty d : strftime_Ymd d ≠ "".
Proof. by rewrite strftime_Ymd_chars. Qed.

Lemma strftime_not_unreleased d : check_date (strftime_Ymd d) = false.
Proof.
  rewrite strftime_Ymd_chars. unfold check_date. cbn [String.eqb].
  by rewrite digit_not_U.
Qed.

Lemma strftime_not_wrapped d :
  startswith [LPAREN] (encode (strftime_Ymd d))
  && endswith [RPAREN] (encode (strftime_Ymd d)) = false.
Proof.
  rewrite strftime_Ymd_chars. unfold encode, list_byte_of_string.
  cbn [list_ascii_of_string map startswith]. by rewrite digit_not_lparen.
Qed.

Lemma strftime_slice_not_unreleased d :
  check_date (string_of_list_byte (slice_1_m1 (encode (strftime_Ymd d)))) = false.
Proof.
  rewrite strftime_Ymd_chars.
  unfold encode, list_byte_of_string, slice_1_m1, string_of_list_byte.
  cbn [list_ascii_of_string map tl removelast string_of_list_ascii].
  rewrite ascii_of_byte_of_ascii. unfold check_date. cbn [String.eqb].
  by rewrite digit_not_U.
Qed.

(** The header [news_mark_released] writes parses as a released entry with
    the date stamped, when the version is made of digits and dots. *)
Lemma stamped_header_parses line v d fmt rd header :
  parses_as line (v, d, fmt, true) →
  fullmatch_digits_dots v = true →
  pyformat fmt (fields (PyStr v) (PyStr (strftime_Ymd rd))) = Ok header →
  parse_version_line (encode header ++ [LF])
  = Ok (v, Some (strftime_Ymd rd), fmt, false).
Proof.
  intros Hshape Hv Hh.
  pose proof (strftime_token rd) as Ht.
  pose proof (strftime_nonempty rd) as Hne.
  inversion Hshape as [vb db v' d' pv Hl Hvb Hc Hd
                      |vb inner v' d' pv Htab Hl Hvb Hc Hd
                      |vb db v' d' pv p' Htab Hl Hn Hvb Hc Hd Hp
                      |v' pv Htab Hsp Hvb Hc]; subst.
  - rewrite pyformat_tab in Hh. injection Hh as <-. simpl str_of_pyval.
    rewrite !encode_app, parse_tab_line by done.
    by rewrite strftime_not_unreleased.
  - rewrite pyformat_paren in Hh. injection Hh as <-. simpl str_of_pyval.
    rewrite !encode_app, parse_paren_line by done.
    by rewrite strftime_not_unreleased.
  - rewrite pyformat_space in Hh. injection Hh as <-. simpl str_of_pyval.
    rewrite !encode_app, parse_space_line
      by (done || apply strftime_not_wrapped).
    by rewrite strftime_slice_not_unreleased.
  - rewrite (digits_dots_check _ Hv) in Hc. discriminate Hc.
Qed.

Lemma header_line_not_heading line v d fmt p a b header :
  parses_as line (v, d, fmt, p) →
  fullmatch_digits_dots a = true →
  pyformat fmt (fields (PyStr a) (PyStr b)) = Ok header →
  startswith (B "Changelog for ") (encode header ++ [LF]) = false
  ∧ startswith (B "======") (encode header ++ [LF]) = false.
Proof.
  intros Hshape Ha Hh.
  destruct (rendered_begins_with_version _ _ _ _ _ _ _ _ Hshape Hh) as [rest ->].
  rewrite <- app_assoc. by apply digits_line_not_heading.
Qed.

(** After [news_mark_released] the leading entry is the header written:
    same version, the date stamped, the same template, not pending. *)
Lemma mark_released_leading path t ev rd lines i line d fmt header :
  leading_entry t path lines i line (ev, d, fmt, true) →
  fullmatch_digits_dots ev = true →
  pyformat fmt (fields (PyStr ev) (PyStr (strftime_Ymd rd))) = Ok header →
  leading_entry (after_write path (<[i := encode header ++ [LF]]> lines) t) path
    (<[i := encode header ++ [LF]]> lines) i (encode header ++ [LF])
    (ev, Some (strftime_Ymd rd), fmt, false).
Proof.
  intros Hl Hv Hh.
  destruct (leading_line_no_lf _ _ _ _ _ _ Hl) as (Hok & Hi & Hs).
  pose proof Hl as (content & _ & _ & Hsk & _ & Hshape%parse_version_line_inv).
  pose proof (stamped_header_parses _ _ _ _ _ _ Hshape Hv Hh) as Hp.
  destruct (header_line_not_heading _ _ _ _ _ _ _ _ Hshape Hv Hh) as [Hnt Hnu].
  apply leading_entry_after_write.
  - apply lines_ok_set; [done..|].
    eapply rendered_no_lf; [exact Hshape|exact Hh| |apply strftime_no_lf].
    by eapply parsed_version_no_lf.
  - eapply header_at_change; [by apply skip_header_iff| | |by eapply parse_ok_not_blank|done..].
    + intros j Hj. apply list_lookup_insert_ne. lia.
    + by apply list_lookup_insert_eq.
  - by apply list_lookup_insert_eq.
  - done.
Qed.

(** The header [news_add_pending] writes, parsed: pending with the date
    [UNRELEASED] in the tab-separated and parenthesized shapes, not pending
    in the two others. *)
Lemma pending_header_parses line v d fmt nv header :
  parses_as line (v, d, fmt, false) →
  fullmatch_digits_dots nv = true →
  pyformat fmt (fields (PyStr nv) (PyStr "UNRELEASED")) = Ok header →
  ∃ d' p',
    parse_version_line (encode header ++ [LF]) = Ok (nv, d', fmt, p')
    ∧ (fmt = fmt_tab ∨ fmt = fmt_paren → d' = Some "UNRELEASED" ∧ p' = true)
    ∧ (fmt = fmt_space ∨ fmt = fmt_bare → p' = false).
Proof.
  intros Hshape Hv Hh.
  destruct (parses_as_template _ _ _ _ _ (PyStr nv) (PyStr "UNRELEASED") Hshape)
    as [[-> H]|[[-> H]|[[-> H]|[-> H]]]];
    rewrite H in Hh; injection Hh as <-; simpl str_of_pyval.
  - exists (Some "UNRELEASED"), true.
    rewrite !encode_app, parse_tab_line by done.
    split; [done|]. split; [done|]. by intros [?|?].
  - exists (Some "UNRELEASED"), true.
    rewrite !encode_app, parse_paren_line by done.
    split; [done|]. split; [done|]. by intros [?|?].
  - exists (Some "UNRELEASED"), false.
    rewrite !encode_app, parse_space_line by done.
    split; [done|]. split; [by intros [?|?]|done].
  - exists None, false. rewrite parse_bare_line by done.
    split; [done|]. split; [by intros [?|?]|done].
Qed.

(** After [news_add_pending] the leading entry is the header inserted. *)
Lemma add_pending_leading path t nv lines i line v d fmt header :
  leading_entry t path lines i line (v, d, fmt, false) →
  fullmatch_digits_dots nv = true →
  pyformat fmt (fields (PyStr nv) (PyStr "UNRELEASED")) = Ok header →
  ∃ d' p',
    leading_entry
      (after_write path
         (take i lines ++ (encode header ++ [LF]) :: [LF] :: drop i lines) t)
      path (take i lines ++ (encode header ++ [LF]) :: [LF] :: drop i lines) i
      (encode header ++ [LF]) (nv, d', fmt, p')
    ∧ (fmt = fmt_tab ∨ fmt = fmt_paren → d' = Some "UNRELEASED" ∧ p' = true)
    ∧ (fmt = fmt_space ∨ fmt = fmt_bare → p' = false).
Proof.
  intros Hl Hv Hh.
  destruct (leading_line_no_lf _ _ _ _ _ _ Hl) as (Hok & Hi & Hs).
  pose proof Hl as (content & _ & _ & Hsk & _ & Hshape%parse_version_line_inv).
  destruct (pending_header_parses _ _ _ _ _ _ Hshape Hv Hh)
    as (d' & p' & Hp & Hyes & Hno).
  destruct (header_line_not_heading _ _ _ _ _ _ _ _ Hshape Hv Hh) as [Hnt Hnu].
  assert ((take i lines ++ (encode header ++ [LF]) :: [LF] :: drop i lines) !! i
          = Some (encode header ++ [LF])) as Hat.
  { rewrite lookup_app_r by (rewrite length_take; lia).
    rewrite length_take, Nat.min_l by lia. by rewrite Nat.sub_diag. }
  exists d', p'. split; [|done].
  apply leading_entry_after_write; [| |done..].
  - apply lines_ok_add; [done..|].
    eapply rendered_no_lf; [exact Hshape|exact Hh| |reflexivity].
    apply visible_contains; [done|]. by apply digits_dots_token.
  - eapply header_at_change; [by apply skip_header_iff| |done|by eapply parse_ok_not_blank|done..].
    intros j Hj. apply inserted_before; lia.
Qed.

(** ** One operation after another *)

Lemma news_find_pending_files path t1 t2 :
  files t1 = files t2 →
  (news_find_pending path t1).1 = (news_find_pending path t2).1.
Proof.
  intros Hf.
  unfold news_find_pending, get_file_lines, mbind, tree_bind, lift, raise.
  rewrite Hf. destruct (files t2 !! path) as [content|]; [|done].
  destruct (skip_header (split_lines content)) as [i|]; [|done].
  destruct (getitem (split_lines content) i) as [line|]; [|done].
  destruct (parse_version_line line) as [[[[v d] fmt] p]|]; [|done].
  by destruct p.
Qed.

(** X10: once [mark_released] has succeeded for a version made of digits and
    dots, the leading entry is released: [find_pending] raises
    [NoUnreleasedChanges]. *)
Theorem mark_released_then_find_pending (path : str) (t : Tree)
    (expected_version : str) (release_date : datetime) (text : str) (t' : Tree) :
  fullmatch_digits_dots expected_version = true →
  news_mark_released path expected_version release_date t = (Ok text, t') →
  news_find_pending path t' = (Raise NoUnreleasedChanges, after_read path t').
Proof.
  intros Hv H. apply news_mark_released_inv in H as [(e & [=] & _)|H].
  destruct H as (lines & i & line & d & fmt & cl & header & Hl & _ & Hh & _ & ->).
  by rewrite (news_find_pending_run _ _ _ _ _ _ _ _ _
                (mark_released_leading _ _ _ _ _ _ _ _ _ _ Hl Hv Hh)).
Qed.

Lemma mark_released_then_find_pending_witness :
  let t := one_file "NEWS" doc_pending in
  let t' := after_write "NEWS"
              [B "1.2.3" ++ [TAB] ++ B "2024-05-01" ++ [LF];
               B "  Fixed bug." ++ [LF]; [LF]] t in
  fullmatch_digits_dots "1.2.3" = true
  ∧ news_mark_released "NEWS" "1.2.3" (mkdate 2024 5 1) t
    = (Ok ("  Fixed bug." +:+ nl_str +:+ nl_str), t')
  ∧ news_find_pending "NEWS" t' = (Raise NoUnreleasedChanges, after_read "NEWS" t').
Proof.
  cbv zeta.
  assert (fullmatch_digits_dots "1.2.3" = true) as Hv by reflexivity.
  assert (news_mark_released "NEWS" "1.2.3" (mkdate 2024 5 1)
            (one_file "NEWS" doc_pending)
          = (Ok ("  Fixed bug." +:+ nl_str +:+ nl_str),
             after_write "NEWS"
               [B "1.2.3" ++ [TAB] ++ B "2024-05-01" ++ [LF];
                B "  Fixed bug." ++ [LF]; [LF]] (one_file "NEWS" doc_pending)))
    as Hm by (vm_compute; reflexivity).
  split; [exact Hv|]. split; [exact Hm|].
  exact (mark_released_then_find_pending _ _ _ _ _ _ Hv Hm).
Defined.

(** X11: [mark_released] does not repeat: after it has succeeded for a
    version made of digits and dots, a second call, whatever version and date
    it is given, raises [NoUnreleasedChanges] and writes nothing. *)
Theorem mark_released_twice (path : str) (t : Tree)
    (expected_version : str) (release_date : datetime) (text : str) (t' : Tree)
    (version2 : str) (date2 : datetime) :
  fullmatch_digits_dots expected_version = true →
  news_mark_released path expected_version release_date t = (Ok text, t') →
  news_mark_released path version2 date2 t'
  = (Raise NoUnreleasedChanges, after_read path t').
Proof.
  intros Hv H. apply news_mark_released_inv in H as [(e & [=] & _)|H].
  destruct H as (lines & i & line & d & fmt & cl & header & Hl & _ & Hh & _ & ->).
  by rewrite (news_mark_released_not_pending _ _ _ _ _ _ _ _ _ _
                (mark_released_leading _ _ _ _ _ _ _ _ _ _ Hl Hv Hh)).
Qed.

Lemma mark_released_twice_witness :
  let t := one_file "NEWS" doc_pending in
  let t' := after_write "NEWS"
              [B "1.2.3" ++ [TAB] ++ B "2024-05-01" ++ [LF];
               B "  Fixed bug." ++ [LF]; [LF]] t in
  fullmatch_digits_dots "1.2.3" = true
  ∧ news_mark_released "NEWS" "1.2.3" (mkdate 2024 5 1) t
    = (Ok ("  Fixed bug." +:+ nl_str +:+ nl_str), t')
  ∧ news_mark_released "NEWS" "1.2.3" (mkdate 2024 5 2) t'
    = (Raise NoUnreleasedChanges, after_read "NEWS" t').
Proof.
  cbv zeta.
  assert (fullmatch_digits_dots "1.2.3" = true) as Hv by reflexivity.
  assert (news_mark_released "NEWS" "1.2.3" (mkdate 2024 5 1)
            (one_file "NEWS" doc_pending)
          = (Ok ("  Fixed bug." +:+ nl_str +:+ nl_str),
             after_write "NEWS"
               [B "1.2.3" ++ [TAB] ++ B "2024-05-01" ++ [LF];
                B "  Fixed bug." ++ [LF]; [LF]] (one_file "NEWS" doc_pending)))
    as Hm by (vm_compute; reflexivity).
  split; [exact Hv|]. split; [exact Hm|].
  exact (mark_released_twice _ _ _ _ _ _ "1.2.3" (mkdate 2024 5 2) Hv Hm).
Defined.

Lemma add_pending_result path t nv lines i line v d fmt :
  leading_entry t path lines i line (v, d, fmt, false) →
  fullmatch_digits_dots nv = true →
  ∃ header d' p',
    news_add_pending path nv t
    = (Ok tt,
       after_write path
         (take i lines ++ (encode header ++ [LF]) :: [LF] :: drop i lines) t)
    ∧ leading_entry
        (after_write path
           (take i lines ++ (encode header ++ [LF]) :: [LF] :: drop i lines) t)
        path (take i lines ++ (encode header ++ [LF]) :: [LF] :: drop i lines) i
        (encode header ++ [LF]) (nv, d', fmt, p')
    ∧ (fmt = fmt_tab ∨ fmt = fmt_paren → d' = Some "UNRELEASED" ∧ p' = true)
    ∧ (fmt = fmt_space ∨ fmt = fmt_bare → p' = false).
Proof.
  intros Hl Hv.
  pose proof Hl as (content & _ & _ & _ & Hi%lookup_lt_Some & Hshape%parse_version_line_inv).
  assert (∃ header, pyformat fmt (fields (PyStr nv) (PyStr "UNRELEASED")) = Ok header)
    as [header Hh].
  { destruct (parses_as_template _ _ _ _ _ (PyStr nv) (PyStr "UNRELEASED") Hshape)
      as [[_ H]|[[_ H]|[[_ H]|[_ H]]]]; eauto. }
  destruct (add_pending_leading _ _ _ _ _ _ _ _ _ _ Hl Hv Hh) as (d' & p' & Hl' & Hyes & Hno).
  exists header, d', p'. split; [|done].
  rewrite <- (list_insert_at_twice lines i [LF]) by lia.
  by eapply news_add_pending_run.
Qed.

(** X12: on a tab-separated or parenthesized leading entry that is not
    pending, [add_pending] of a version made of digits and dots succeeds, and
    [find_pending] then returns that version. *)
Theorem add_pending_then_find_pending (path : str) (t : Tree) (new_version : str)
    (lines : list bytes) (i : nat) (line : bytes)
    (v : str) (d : option str) (fmt : str) :
  leading_entry t path lines i line (v, d, fmt, false) →
  fmt = fmt_tab ∨ fmt = fmt_paren →
  fullmatch_digits_dots new_version = true →
  ∃ t', news_add_pending path new_version t = (Ok tt, t')
        ∧ news_find_pending path t' = (Ok new_version, after_read path t').
Proof.
  intros Hl Hfmt Hv.
  destruct (add_pending_result _ _ _ _ _ _ _ _ _ Hl Hv)
    as (header & d' & p' & Hrun & Hl' & Hyes & _).
  destruct (Hyes Hfmt) as [-> ->].
  eexists. split; [exact Hrun|].
  by rewrite (news_find_pending_run _ _ _ _ _ _ _ _ _ Hl').
Qed.

Lemma add_pending_then_find_pending_witness :
  let t := one_file "NEWS" doc_released in
  leading_entry t "NEWS" [doc_released] 0 doc_released
    ("1.2.3", Some "2024-05-01", fmt_paren, false)
  ∧ (fmt_paren = fmt_tab ∨ fmt_paren = fmt_paren)
  ∧ fullmatch_digits_dots "1.3.0" = true
  ∧ ∃ t', news_add_pending "NEWS" "1.3.0" t = (Ok tt, t')
          ∧ news_find_pending "NEWS" t' = (Ok "1.3.0", after_read "NEWS" t').
Proof.
  cbv zeta.
  assert (leading_entry (one_file "NEWS" doc_released) "NEWS" [doc_released] 0
            doc_released ("1.2.3", Some "2024-05-01", fmt_paren, false)) as Hl.
  { exists doc_released. repeat split; vm_compute; reflexivity. }
  assert (fmt_paren = fmt_tab ∨ fmt_paren = fmt_paren) as Hfmt by (by right).
  assert (fullmatch_digits_dots "1.3.0" = true) as Hv by reflexivity.
  split; [exact Hl|]. split; [exact Hfmt|]. split; [exact Hv|].
  exact (add_pending_then_find_pending "NEWS" _ "1.3.0" _ _ _ _ _ _ Hl Hfmt Hv).
Defined.

(** X13: no two pending entries are stacked in the tab-separated and
    parenthesized shapes: after [add_pending] of a version made of digits and
    dots, a second [add_pending] raises [PendingExists] with that version and
    [UNRELEASED], and writes nothing. *)
Theorem add_pending_twice (path : str) (t : Tree) (new_version version2 : str)
    (lines : list bytes) (i : nat) (line : bytes)
    (v : str) (d : option str) (fmt : str) :
  leading_entry t path lines i line (v, d, fmt, false) →
  fmt = fmt_tab ∨ fmt = fmt_paren →
  fullmatch_digits_dots new_version = true →
  ∃ t', news_add_pending path new_version t = (Ok tt, t')
        ∧ news_add_pending path version2 t'
          = (Raise (PendingExists new_version (Some "UNRELEASED")),
             after_read path t').
Proof.
  intros Hl Hfmt Hv.
  destruct (add_pending_result _ _ _ _ _ _ _ _ _ Hl Hv)
    as (header & d' & p' & Hrun & Hl' & Hyes & _).
  destruct (Hyes Hfmt) as [-> ->].
  eexists. split; [exact Hrun|].
  by rewrite (news_add_pending_exists _ _ _ _ _ _ _ _ _ Hl').
Qed.

Lemma add_pending_twice_witness :
  let t := one_file "NEWS" doc_released in
  leading_entry t "NEWS" [doc_released] 0 doc_released
    ("1.2.3", Some "2024-05-01", fmt_paren, false)
  ∧ (fmt_paren = fmt_tab ∨ fmt_paren = fmt_paren)
  ∧ fullmatch_digits_dots "1.3.0" = true
  ∧ ∃ t', news_add_pending "NEWS" "1.3.0" t = (Ok tt, t')
          ∧ news_add_pending "NEWS" "1.4.0" t'
            = (Raise (PendingExists "1.3.0" (Some "UNRELEASED")),
               after_read "NEWS" t').
Proof.
  cbv zeta.
  assert (leading_entry (one_file "NEWS" doc_released) "NEWS" [doc_released] 0
            doc_released ("1.2.3", Some "2024-05-01", fmt_paren, false)) as Hl.
  { exists doc_released. repeat split; vm_compute; reflexivity. }
  assert (fmt_paren = fmt_tab ∨ fmt_paren = fmt_paren) as Hfmt by (by right).
  assert (fullmatch_digits_dots "1.3.0" = true) as Hv by reflexivity.
  split; [exact Hl|]. split; [exact Hfmt|]. split; [exact Hv|].
  exact (add_pending_twice "NEWS" _ "1.3.0" "1.4.0" _ _ _ _ _ _ Hl Hfmt Hv).
Defined.

(** X14: on a space-separated or version-only leading entry that is not
    pending, [add_pending] of a version made of digits and dots succeeds, but
    the entry it writes is not read back as pending: [find_pending] then
    raises [NoUnreleasedChanges]. *)
Theorem add_pending_not_found_pending (path : str) (t : Tree) (new_version : str)
    (lines : list bytes) (i : nat) (line : bytes)
    (v : str) (d : option str) (fmt : str) :
  leading_entry t path lines i line (v, d, fmt, false) →
  fmt = fmt_space ∨ fmt = fmt_bare →
  fullmatch_digits_dots new_version = true →
  ∃ t', news_add_pending path new_version t = (Ok tt, t')
        ∧ news_find_pending path t'
          = (Raise NoUnreleasedChanges, after_read path t').
Proof.
  intros Hl Hfmt Hv.
  destruct (add_pending_result _ _ _ _ _ _ _ _ _ Hl Hv)
    as (header & d' & p' & Hrun & Hl' & _ & Hno).
  rewrite (Hno Hfmt) in Hl'.
  eexists. split; [exact Hrun|].
  by rewrite (news_find_pending_run _ _ _ _ _ _ _ _ _ Hl').
Qed.

Lemma add_pending_not_found_pending_witness :
  let doc := B "1.2.3 2024-05-01" ++ [LF] in
  let t := one_file "NEWS" doc in
  leading_entry t "NEWS" [doc] 0 doc ("1.2.3", Some "2024-05-01", fmt_space, false)
  ∧ (fmt_space = fmt_space ∨ fmt_space = fmt_bare)
  ∧ fullmatch_digits_dots "1.3.0" = true
  ∧ ∃ t', news_add_pending "NEWS" "1.3.0" t = (Ok tt, t')
          ∧ news_find_pending "NEWS" t'
            = (Raise NoUnreleasedChanges, after_read "NEWS" t').
Proof.
  cbv zeta.
  assert (leading_entry (one_file "NEWS" (B "1.2.3 2024-05-01" ++ [LF])) "NEWS"
            [B "1.2.3 2024-05-01" ++ [LF]] 0 (B "1.2.3 2024-05-01" ++ [LF])
            ("1.2.3", Some "2024-05-01", fmt_space, false)) as Hl.
  { eexists. repeat split; vm_compute; reflexivity. }
  assert (fmt_space = fmt_space ∨ fmt_space = fmt_bare) as Hfmt by (by left).
  assert (fullmatch_digits_dots "1.3.0" = true) as Hv by reflexivity.
  split; [exact Hl|]. split; [exact Hfmt|]. split; [exact Hv|].
  exact (add_pending_not_found_pending "NEWS" _ "1.3.0" _ _ _ _ _ _ Hl Hfmt Hv).
Defined.



(** ** What the operations leave alone *)

Lemma after_read_touches_only path t : touches_only path t (after_read path t).
Proof.
  split; [done|]. exists [GetFileLines path]. split; [done|].
  by repeat constructor.
Qed.

Lemma after_write_touches_only path lines t :
  touches_only path t (after_write path lines t).
Proof.
  split.
  - intros other Hne. simpl. by rewrite lookup_insert_ne.
  - eexists. split; [done|]. by repeat constructor.
Qed.

(** X16: whatever they return or raise, the three operations touch no file
    but the one at [path]: the other files of the tree are unchanged and
    every call made on the tree names [path]. *)
Theorem operations_touch_only_path (path : str) (t : Tree) :
  (∀ r t', news_find_pending path t = (r, t') → touches_only path t t')
  ∧ (∀ expected_version release_date r t',
        news_mark_released path expected_version release_date t = (r, t') →
        touches_only path t t')
  ∧ (∀ new_version r t',
        news_add_pending path new_version t = (r, t') →
        touches_only path t t').
Proof.
  split; [|split].
  - intros r t' H. pose proof (news_find_pending_state path t) as Hs.
    rewrite H in Hs. simpl in Hs. subst. apply after_read_touches_only.
  - intros ev rd r t' H.
    apply news_mark_released_inv in H as [(e & _ & ->)|H].
    + apply after_read_touches_only.
    + destruct H as (? & ? & ? & ? & ? & ? & ? & _ & _ & _ & _ & ->).
      apply after_write_touches_only.
  - intros nv r t' H.
    apply news_add_pending_inv in H as [(e & _ & ->)|H].
    + apply after_read_touches_only.
    + destruct H as (? & ? & ? & ? & ? & ? & ? & _ & _ & _ & ->).
      apply after_write_touches_only.
Qed.

Lemma operations_touch_only_path_witness :
  let t := mkTree (<["README" := B "hello"]> {["NEWS" := doc_pending]}) [] in
  let written := [B "1.2.3" ++ [TAB] ++ B "2024-05-01" ++ [LF];
                  B "  Fixed bug." ++ [LF]; [LF]] in
  news_mark_released "NEWS" "1.2.3" (mkdate 2024 5 1) t
  = (Ok ("  Fixed bug." +:+ nl_str +:+ nl_str), after_write "NEWS" written t)
  ∧ files (after_write "NEWS" written t) !! "README" = Some (B "hello")
  ∧ touches_only "NEWS" t (after_write "NEWS" written t).
Proof.
  cbv zeta.
  split; [vm_compute; reflexivity|]. split; [vm_compute; reflexivity|].
  apply (proj1 (proj2 (operations_touch_only_path "NEWS"
                         (mkTree (<["README" := B "hello"]> {["NEWS" := doc_pending]})
                                 [])))
           "1.2.3" (mkdate 2024 5 1) (Ok ("  Fixed bug." +:+ nl_str +:+ nl_str))).
  vm_compute; reflexivity.
Defined.

(** ** How [mark_released] fails *)

Lemma news_mark_released_mismatch path ev rd t lines i line v d fmt :
  leading_entry t path lines i line (v, d, fmt, true) →
  ev ≠ v →
  news_mark_released path ev rd t
  = (Raise (AssertionError ("unexpected version: " +:+ v +:+ " != " +:+ ev)),
     after_read path t).
Proof.
  intros (content & Hf & -> & Hi & Hl & Hp) Hne.
  unfold news_mark_released, get_file_lines, mbind, tree_bind, lift, raise.
  rewrite Hf, Hi. apply getitem_ok in Hl as Hg. rewrite Hg, Hp.
  cbv beta iota. apply String.eqb_neq in Hne as ->. reflexivity.
Qed.

(** X17: [mark_released] looks at the entry before it looks at the version.
    On a leading entry that is not pending it raises [NoUnreleasedChanges]
    whatever version is expected; on a pending one whose version is not the
    expected one it raises [AssertionError], the message naming the version
    found and then the one expected.  Neither writes. *)
Theorem mark_released_error_order (path : str) (t : Tree)
    (expected_version : str) (release_date : datetime)
    (lines : list bytes) (i : nat) (line : bytes)
    (v : str) (d : option str) (fmt : str) (p : bool) :
  leading_entry t path lines i line (v, d, fmt, p) →
  (p = false →
   news_mark_released path expected_version release_date t
   = (Raise NoUnreleasedChanges, after_read path t))
  ∧ (p = true → expected_version ≠ v →
     news_mark_released path expected_version release_date t
     = (Raise (AssertionError
                 ("unexpected version: " +:+ v +:+ " != " +:+ expected_version)),
        after_read path t)).
Proof.
  intros Hl. split.
  - intros ->. by eapply news_mark_released_not_pending.
  - intros -> Hne. by eapply news_mark_released_mismatch.
Qed.

Lemma mark_released_error_order_witness :
  let t := one_file "NEWS" doc_released in
  leading_entry t "NEWS" [doc_released] 0 doc_released
    ("1.2.3", Some "2024-05-01", fmt_paren, false)
  ∧ news_mark_released "NEWS" "9.9" (mkdate 2024 5 1) t
    = (Raise NoUnreleasedChanges, after_read "NEWS" t).
Proof.
  cbv zeta.
  assert (leading_entry (one_file "NEWS" doc_released) "NEWS" [doc_released] 0
            doc_released ("1.2.3", Some "2024-05-01", fmt_paren, false)) as Hl.
  { exists doc_released. repeat split; vm_compute; reflexivity. }
  split; [exact Hl|].
  exact (proj1 (mark_released_error_order "NEWS" _ "9.9" (mkdate 2024 5 1)
                  _ _ _ _ _ _ _ Hl) eq_refl).
Defined.

Lemma collect_change_lines_invalid rest acc :
  Exists (λ l, utf8_valid l = false) (change_block rest) →
  collect_change_lines rest acc = Raise UnicodeDecodeError.
Proof.
  revert acc. induction rest as [|l rest IH]; intros acc; simpl.
  - by intros ?%Exists_nil.
  - destruct (is_change_line l); [|by intros ?%Exists_nil].
    intros [Hl|Hrest]%Exists_cons; unfold decode.
    + by rewrite Hl.
    + destruct (utf8_valid l); [|done]. cbn [mbind result_bind]. by apply IH.
Qed.

(** X18: when the leading entry is pending with the expected version and
    some line of its change block is not valid UTF-8, [mark_released] raises
    [UnicodeDecodeError] and writes nothing. *)
Theorem mark_released_undecodable (path : str) (t : Tree)
    (expected_version : str) (release_date : datetime)
    (lines : list bytes) (i : nat) (line : bytes) (d : option str) (fmt : str) :
  leading_entry t path lines i line (expected_version, d, fmt, true) →
  Exists (λ l, utf8_valid l = false) (change_block (drop (i + 1) lines)) →
  news_mark_released path expected_version release_date t
  = (Raise UnicodeDecodeError, after_read path t).
Proof.
  intros (content & Hf & -> & Hi & Hl & Hp) Hbad.
  unfold news_mark_released, get_file_lines, mbind, tree_bind, lift, raise.
  rewrite Hf, Hi. apply getitem_ok in Hl as Hg. rewrite Hg, Hp.
  cbv beta iota. rewrite String.eqb_refl. cbn [negb]. cbv iota.
  by rewrite collect_change_lines_invalid.
Qed.

Lemma mark_released_undecodable_witness :
  let doc := B "1.2.3" ++ [TAB] ++ B "UNRELEASED" ++ [LF]
             ++ B "  ok" ++ [LF] ++ [TAB; xc3; LF] in
  let lines := [B "1.2.3" ++ [TAB] ++ B "UNRELEASED" ++ [LF];
                B "  ok" ++ [LF]; [TAB; xc3; LF]] in
  let t := one_file "NEWS" doc in
  leading_entry t "NEWS" lines 0 (B "1.2.3" ++ [TAB] ++ B "UNRELEASED" ++ [LF])
    ("1.2.3", Some "UNRELEASED", fmt_tab, true)
  ∧ Exists (λ l, utf8_valid l = false) (change_block (drop (0 + 1) lines))
  ∧ news_mark_released "NEWS" "1.2.3" (mkdate 2024 5 1) t
    = (Raise UnicodeDecodeError, after_read "NEWS" t).
Proof.
  cbv zeta.
  assert (leading_entry
            (one_file "NEWS"
               (B "1.2.3" ++ [TAB] ++ B "UNRELEASED" ++ [LF]
                ++ B "  ok" ++ [LF] ++ [TAB; xc3; LF]))
            "NEWS"
            [B "1.2.3" ++ [TAB] ++ B "UNRELEASED" ++ [LF];
             B "  ok" ++ [LF]; [TAB; xc3; LF]] 0
            (B "1.2.3" ++ [TAB] ++ B "UNRELEASED" ++ [LF])
            ("1.2.3", Some "UNRELEASED", fmt_tab, true)) as Hl.
  { eexists. repeat split; vm_compute; reflexivity. }
  assert (Exists (λ l, utf8_valid l = false)
            (change_block (drop (0 + 1)
               [B "1.2.3" ++ [TAB] ++ B "UNRELEASED" ++ [LF];
                B "  ok" ++ [LF]; [TAB; xc3; LF]]))) as Hbad.
  { vm_compute. apply Exists_cons_tl, Exists_cons_hd. reflexivity. }
  split; [exact Hl|]. split; [exact Hbad|].
  exact (mark_released_undecodable "NEWS" _ "1.2.3" (mkdate 2024 5 1)
           _ 0 _ _ _ Hl Hbad).
Defined.

(** ** What the operations can raise *)










(** ** Parsing again what a parsed line renders to *)

Lemma strip_head s :
  strip s = [] ∨ ∃ c m, strip s = c :: m ∧ is_space c = false.
Proof.
  unfold strip. destruct (lstrip_head s) as [->|(c & m & -> & E)]; [by left|].
  right. exists c, (rstrip m). by rewrite rstrip_cons_text.
Qed.

Lemma rstrip_strip s : rstrip (strip s) = strip s.
Proof. unfold strip. apply rstrip_idem. Qed.

(** A stripped line given a terminator again strips to itself. *)
Lemma strip_strip_lf s : strip (strip s ++ [LF]) = strip s.
Proof.
  destruct (strip_head s) as [->|(c & m & Hs & E)]; [done|].
  unfold strip at 1. rewrite Hs.
  change ((c :: m) ++ [LF]) with (c :: m ++ [LF]).
  rewrite lstrip_fixed by done.
  change (c :: m ++ [LF]) with ((c :: m) ++ [LF]).
  rewrite rstrip_snoc_space by done. rewrite <- Hs. apply rstrip_strip.
Qed.

Lemma rendered_is_stripped line v d fmt p s :
  parses_as line (v, d, fmt, p) →
  pyformat fmt (fields (PyStr v) (pyval_of_date d)) = Ok s →
  encode s = strip line.
Proof.
  intros H Hs.
  inversion H as [vb db v' d' pv Hl Hv Hc Hd
                 |vb inner v' d' pv Ht Hl Hv Hc Hd
                 |vb db v' d' pv p' Ht Hl Hn Hv Hc Hd Hp
                 |v' pv Ht Hsp Hv Hc]; subst; simpl pyval_of_date in Hs.
  - rewrite pyformat_tab in Hs. injection Hs as <-. simpl str_of_pyval.
    by rewrite !encode_app, (decode_encode _ _ Hv), (decode_encode _ _ Hd), Hl.
  - rewrite pyformat_paren in Hs. injection Hs as <-. simpl str_of_pyval.
    by rewrite !encode_app, (decode_encode _ _ Hv), (decode_encode _ _ Hd), Hl.
  - rewrite pyformat_space in Hs. injection Hs as <-. simpl str_of_pyval.
    by rewrite !encode_app, (decode_encode _ _ Hv), (decode_encode _ _ Hd), Hl.
  - rewrite pyformat_bare in Hs. injection Hs as <-. simpl str_of_pyval.
    by apply decode_encode.
Qed.

(** X20: what an accepted header line renders to, given a line feed, parses
    to the very same version, date, template and classification. *)
Theorem rendered_line_parses_alike (line : bytes)
    (v : str) (d : option str) (fmt : str) (p : bool) (s : str) :
  parse_version_line line = Ok (v, d, fmt, p) →
  pyformat fmt (fields (PyStr v) (pyval_of_date d)) = Ok s →
  parse_version_line (encode s ++ [LF]) = Ok (v, d, fmt, p).
Proof.
  intros Hp Hs. rewrite <- Hp.
  rewrite (rendered_is_stripped _ _ _ _ _ _ (parse_version_line_inv _ _ Hp) Hs).
  unfold parse_version_line. by rewrite strip_strip_lf.
Qed.

Lemma rendered_line_parses_alike_witness :
  let line := [SPACE; SPACE] ++ B "1.2.3 (UNRELEASED)" ++ [SPACE; x0d; LF] in
  parse_version_line line = Ok ("1.2.3", Some "UNRELEASED", fmt_paren, true)
  ∧ pyformat fmt_paren (fields (PyStr "1.2.3") (pyval_of_date (Some "UNRELEASED")))
    = Ok "1.2.3 (UNRELEASED)"
  ∧ parse_version_line (encode "1.2.3 (UNRELEASED)" ++ [LF])
    = Ok ("1.2.3", Some "UNRELEASED", fmt_paren, true).
Proof.
  cbv zeta.
  assert (parse_version_line
            ([SPACE; SPACE] ++ B "1.2.3 (UNRELEASED)" ++ [SPACE; x0d; LF])
          = Ok ("1.2.3", Some "UNRELEASED", fmt_paren, true)) as Hp by reflexivity.
  assert (pyformat fmt_paren
            (fields (PyStr "1.2.3") (pyval_of_date (Some "UNRELEASED")))
          = Ok "1.2.3 (UNRELEASED)") as Hs by reflexivity.
  split; [exact Hp|]. split; [exact Hs|].
  exact (rendered_line_parses_alike _ _ _ _ _ _ Hp Hs).
Defined.

(** ** The release notes *)

Lemma collect_change_lines_run rest acc cl :
  collect_change_lines rest acc = Ok cl →
  ∃ block tail texts,
    rest = block ++ tail
    ∧ Forall (λ l, is_change_line l = true) block
    ∧ match tail with [] => True | l :: _ => is_change_line l = false end
    ∧ Forall2 (λ l s, decode l = Ok s) block texts
    ∧ cl = acc ++ texts.
Proof.
  revert acc. induction rest as [|l rest IH]; intros acc; simpl.
  - intros [= <-]. exists [], [], []. rewrite !app_nil_r.
    repeat split; constructor.
  - destruct (is_change_line l) eqn:Hc.
    + destruct (decode l) as [s|e] eqn:Hd; [|done]. cbn [mbind result_bind].
      intros (block & tail & texts & -> & Hb & Ht & Hdec & ->)%IH.
      exists (l :: block), tail, (s :: texts).
      split; [done|]. split; [by constructor|]. split; [done|].
      split; [by constructor|]. by rewrite <- app_assoc.
    + intros [= <-]. exists [], (l :: rest), []. rewrite !app_nil_r.
      split; [done|]. split; [constructor|]. split; [done|].
      split; [constructor|done].
Qed.

Lemma decoded_block_text block texts :
  Forall2 (λ l s, decode l = Ok s) block texts →
  encode (join_str texts) = join_bytes block.
Proof.
  intros H. rewrite encode_join_str. unfold join_bytes. f_equal.
  induction H as [|l s block texts Hd _ IH]; simpl; [done|].
  by rewrite (decode_encode _ _ Hd), IH.
Qed.

(** X21: the text a successful [mark_released] returns is, byte for byte, a
    run of lines that starts right after the header, whose lines are all
    blank or begin with a space or a tab, and that ends at the end of the
    file or just before a line that is neither. *)
Theorem release_notes_are_the_run (path : str) (t : Tree)
    (expected_version : str) (release_date : datetime) (text : str) (t' : Tree) :
  news_mark_released path expected_version release_date t = (Ok text, t') →
  ∃ lines i block tail,
    (get_file_lines path t).1 = Ok lines
    ∧ skip_header lines = Ok i
    ∧ drop (i + 1) lines = block ++ tail
    ∧ Forall (λ l, is_change_line l = true) block
    ∧ match tail with [] => True | l :: _ => is_change_line l = false end
    ∧ encode text = join_bytes block.
Proof.
  intros H. apply news_mark_released_inv in H as [(e & [=] & _)|H].
  destruct H as (lines & i & line & d & fmt & cl & header & Hl & Hc & _ & [= ->] & _).
  destruct Hl as (content & Hf & -> & Hi & _).
  apply collect_change_lines_run in Hc as (block & tail & texts & Hd & Hb & Ht & Hdec & ->).
  exists (split_lines content), i, block, tail.
  split; [unfold get_file_lines; by rewrite Hf|].
  repeat split; try done. by apply decoded_block_text.
Qed.

Lemma release_notes_are_the_run_witness :
  let doc := B "1.3.0" ++ [TAB] ++ B "UNRELEASED" ++ [LF]
             ++ B " * new" ++ [LF] ++ [LF]
             ++ B "1.2.3" ++ [TAB] ++ B "2024-05-01" ++ [LF]
             ++ B " * old" ++ [LF] in
  let t := one_file "NEWS" doc in
  let written := [B "1.3.0" ++ [TAB] ++ B "2024-06-01" ++ [LF];
                  B " * new" ++ [LF]; [LF];
                  B "1.2.3" ++ [TAB] ++ B "2024-05-01" ++ [LF];
                  B " * old" ++ [LF]] in
  news_mark_released "NEWS" "1.3.0" (mkdate 2024 6 1) t
  = (Ok (" * new" +:+ nl_str +:+ nl_str), after_write "NEWS" written t)
  ∧ ∃ lines i block tail,
      (get_file_lines "NEWS" t).1 = Ok lines
      ∧ skip_header lines = Ok i
      ∧ drop (i + 1) lines = block ++ tail
      ∧ Forall (λ l, is_change_line l = true) block
      ∧ match tail with [] => True | l :: _ => is_change_line l = false end
      ∧ encode (" * new" +:+ nl_str +:+ nl_str) = join_bytes block.
Proof.
  cbv zeta.
  assert (news_mark_released "NEWS" "1.3.0" (mkdate 2024 6 1)
            (one_file "NEWS"
               (B "1.3.0" ++ [TAB] ++ B "UNRELEASED" ++ [LF]
                ++ B " * new" ++ [LF] ++ [LF]
                ++ B "1.2.3" ++ [TAB] ++ B "2024-05-01" ++ [LF]
                ++ B " * old" ++ [LF]))
          = (Ok (" * new" +:+ nl_str +:+ nl_str),
             after_write "NEWS"
               [B "1.3.0" ++ [TAB] ++ B "2024-06-01" ++ [LF];
                B " * new" ++ [LF]; [LF];
                B "1.2.3" ++ [TAB] ++ B "2024-05-01" ++ [LF];
                B " * old" ++ [LF]]
               (one_file "NEWS"
                  (B "1.3.0" ++ [TAB] ++ B "UNRELEASED" ++ [LF]
                   ++ B " * new" ++ [LF] ++ [LF]
                   ++ B "1.2.3" ++ [TAB] ++ B "2024-05-01" ++ [LF]
                   ++ B " * old" ++ [LF])))) as Hm by (vm_compute; reflexivity).
  split; [exact Hm|].
  exact (release_notes_are_the_run _ _ _ _ _ _ Hm).
Defined.

(** ** Entries recorded with the lemmas above *)

Lemma pending_iff_unreleased_date_witness :
  parse_version_line (B "1.2.3 (UNRELEASED)" ++ [LF])
  = Ok ("1.2.3", Some "UNRELEASED", fmt_paren, true)
  ∧ fullmatch_digits_dots "1.2.3" = true
  ∧ fmt_paren ≠ fmt_space
  ∧ (true = true ↔ Some "UNRELEASED" = Some "UNRELEASED").
Proof.
  assert (parse_version_line (B "1.2.3 (UNRELEASED)" ++ [LF])
          = Ok ("1.2.3", Some "UNRELEASED", fmt_paren, true)) as Hp by reflexivity.
  assert (fullmatch_digits_dots "1.2.3" = true) as Hv by reflexivity.
  assert (fmt_paren ≠ fmt_space) as Hf by discriminate.
  split; [exact Hp|]. split; [exact Hv|]. split; [exact Hf|].
  exact (pending_iff_unreleased_date _ _ _ _ _ Hp Hv Hf).
Defined.

Lemma mark_released_read_back_witness :
  let t := one_file "NEWS" doc_pending in
  let t' := after_write "NEWS"
              [B "1.2.3" ++ [TAB] ++ B "2024-05-01" ++ [LF];
               B "  Fixed bug." ++ [LF]; [LF]] t in
  news_mark_released "NEWS" "1.2.3" (mkdate 2024 5 1) t
  = (Ok ("  Fixed bug." +:+ nl_str +:+ nl_str), t')
  ∧ ∃ lines i header,
      (get_file_lines "NEWS" t).1 = Ok lines
      ∧ skip_header lines = Ok i
      ∧ (get_file_lines "NEWS" t').1 = Ok (<[i := header]> lines).
Proof.
  cbv zeta.
  assert (news_mark_released "NEWS" "1.2.3" (mkdate 2024 5 1)
            (one_file "NEWS" doc_pending)
          = (Ok ("  Fixed bug." +:+ nl_str +:+ nl_str),
             after_write "NEWS"
               [B "1.2.3" ++ [TAB] ++ B "2024-05-01" ++ [LF];
                B "  Fixed bug." ++ [LF]; [LF]] (one_file "NEWS" doc_pending)))
    as Hm by (vm_compute; reflexivity).
  split; [exact Hm|].
  exact (mark_released_read_back _ _ _ _ _ _ Hm).
Defined.

Lemma add_pending_read_back_witness :
  let t := one_file "NEWS" doc_released in
  let t' := after_write "NEWS"
              [B "1.3.0 (UNRELEASED)" ++ [LF]; [LF];
               B "1.2.3 (2024-05-01)" ++ [LF]] t in
  contains LF (encode "1.3.0") = false
  ∧ news_add_pending "NEWS" "1.3.0" t = (Ok tt, t')
  ∧ ∃ lines i header,
      (get_file_lines "NEWS" t).1 = Ok lines
      ∧ skip_header lines = Ok i
      ∧ (get_file_lines "NEWS" t').1
        = Ok (take i lines ++ header :: [LF] :: drop i lines).
Proof.
  cbv zeta.
  assert (contains LF (encode "1.3.0") = false) as Hnv by reflexivity.
  assert (news_add_pending "NEWS" "1.3.0" (one_file "NEWS" doc_released)
          = (Ok tt,
             after_write "NEWS"
               [B "1.3.0 (UNRELEASED)" ++ [LF]; [LF];
                B "1.2.3 (2024-05-01)" ++ [LF]] (one_file "NEWS" doc_released)))
    as Ha by (vm_compute; reflexivity).
  split; [exact Hnv|]. split; [exact Ha|].
  exact (add_pending_read_back _ _ _ _ _ Hnv Ha).
Defined.

(** X24: on a leading entry that is pending, [add_pending] raises
    [PendingExists] with the version and the date of that entry (no date for
    a version-only line) whatever the new version, and writes nothing. *)
Theorem add_pending_on_pending (path : str) (t : Tree) (new_version : str)
    (lines : list bytes) (i : nat) (line : bytes)
    (v : str) (d : option str) (fmt : str) :
  leading_entry t path lines i line (v, d, fmt, true) →
  news_add_pending path new_version t
  = (Raise (PendingExists v d), after_read path t).
Proof. apply news_add_pending_exists. Qed.

Lemma add_pending_on_pending_witness :
  let doc := B "UNRELEASED" ++ [LF] ++ B "  * something" ++ [LF] in
  let t := one_file "NEWS" doc in
  leading_entry t "NEWS" [B "UNRELEASED" ++ [LF]; B "  * something" ++ [LF]] 0
    (B "UNRELEASED" ++ [LF]) ("UNRELEASED", None, fmt_bare, true)
  ∧ news_add_pending "NEWS" "1.3.0" t
    = (Raise (PendingExists "UNRELEASED" None), after_read "NEWS" t).
Proof.
  cbv zeta.
  assert (leading_entry
            (one_file "NEWS" (B "UNRELEASED" ++ [LF] ++ B "  * something" ++ [LF]))
            "NEWS" [B "UNRELEASED" ++ [LF]; B "  * something" ++ [LF]] 0
            (B "UNRELEASED" ++ [LF]) ("UNRELEASED", None, fmt_bare, true)) as Hl.
  { eexists. repeat split; vm_compute; reflexivity. }
  split; [exact Hl|].
  exact (add_pending_on_pending "NEWS" _ "1.3.0" _ _ _ _ _ _ Hl).
Defined.
